(** * metaimport: the import-path resolution engine

    A shallow embedding of the Go program [metaimport], a vanity-import
    redirector: the request handler that picks a prefix rule for a package
    path, and the start-up code that prepares the rule table.

    The development follows the variant of the program that carries
    [NbComponents] (json [nb_components]) on its rules, and, next to it, the
    variant whose configuration is checked by struct-tag validation. *)

From Stdlib Require Import ZArith Ascii String DecimalString DecimalNat.
From stdpp Require Import base option list strings gmap.

Local Open Scope string_scope.

(** ** The Go standard library functions the program calls *)

Module Go.

(** [len(s)] of a Go string: its number of bytes. *)
Definition len (s : string) : nat := String.length s.

(** [s[:n]] for [n <= len(s)]. *)
Fixpoint take_bytes (n : nat) (s : string) : string :=
  match n, s with
  | S n', String c s' => String c (take_bytes n' s')
  | _, _ => EmptyString
  end.

(** [strings.HasPrefix(s, prefix)]:
    [len(s) >= len(prefix) && s[:len(prefix)] == prefix]. *)
Definition HasPrefix (s prefix : string) : bool :=
  (len prefix <=? len s)%nat && String.eqb (take_bytes (len prefix) s) prefix.

(** [strings.Split(s, sep)] for a separator of one byte: the substrings
    between the separators; the result is never empty, and
    [Split("", sep)] is the list of one empty string. *)
Fixpoint Split (s : string) (sep : ascii) : list string :=
  match s with
  | EmptyString => [EmptyString]
  | String c s' =>
      if Ascii.eqb c sep then EmptyString :: Split s' sep
      else match Split s' sep with
           | [] => [String c EmptyString]
           | x :: xs => String c x :: xs
           end
  end.

(** [strings.Join(elems, sep)]. *)
Fixpoint Join (elems : list string) (sep : string) : string :=
  match elems with
  | [] => EmptyString
  | [x] => x
  | x :: xs => x ++ sep ++ Join xs sep
  end.

(** [strconv.Itoa(i)] for a slice index [i]. *)
Definition Itoa (i : nat) : string :=
  NilEmpty.string_of_uint (Nat.to_uint i).

(** [s[:n]] on a slice whose capacity is its length, as the result of
    [strings.Split] is: a run-time panic unless [0 <= n <= len(s)]. *)
Definition slice_to {A} (s : list A) (n : Z) : option (list A) :=
  if ((0 <=? n) && (n <=? Z.of_nat (length s)))%Z
  then Some (take (Z.to_nat n) s)
  else None.

(** [url.Values.Get(key)]: the first value of the key, or the empty
    string. *)
Definition Get (v : gmap string (list string)) (key : string) : string :=
  match v !! key with
  | Some (x :: _) => x
  | _ => EmptyString
  end.

End Go.

(** ** Templates

    The program renders with Go's [html/template]. The engine is a library:
    the development is parametric in it. A template takes the data the
    program passes to it: the components of a package path, or the
    [metaImport] of the response page. *)

Record metaImport := MetaImport {
  mi_Prefix : string;
  mi_VCS : string;
  mi_Repo : string
}.

Inductive data :=
| Components (elems : list string)
| Meta (mi : metaImport).

Class TemplateEngine := {
  template : Type;
  (** [Parse]: [None] is a parse error. *)
  Parse : string -> option template;
  (** [Execute]: [None] is an error while the template runs. *)
  Execute : template -> data -> option string
}.

(** ** The configuration *)

Record importPath := ImportPath {
  Prefix : string;
  NbComponents : Z;
  VCS : string;
  RepoTemplate : string
}.

Record tls := Tls { Cert : string; PrivKey : string }.

Record config := Config {
  Host : string;
  Port : Z;
  TlsConf : option tls;
  Paths : list importPath
}.

(** A rule as the configuration file gives it: [nb_components] and [vcs]
    may be missing, and the decoder leaves the zero value in the field. *)
Record jsonPath := JsonPath {
  j_prefix : option string;
  j_nb_components : option Z;
  j_vcs : option string;
  j_repo_template : option string
}.

Definition decodePath (j : jsonPath) : importPath :=
  {| Prefix := default EmptyString (j_prefix j);
     NbComponents := default 0%Z (j_nb_components j);
     VCS := default EmptyString (j_vcs j);
     RepoTemplate := default EmptyString (j_repo_template j) |}.

(** ** Requests, responses, the log *)

Record request := Request {
  r_Host : string;
  r_Path : string;
  r_Query : gmap string (list string)
}.

Record response := Response {
  status : Z;
  header : list (string * string);
  body : string
}.

Definition StatusOK : Z := 200.
Definition StatusBadRequest : Z := 400.
Definition StatusNotFound : Z := 404.
Definition StatusInternalServerError : Z := 500.

(** [w.WriteHeader(code)] and nothing else. *)
Definition WriteHeader (code : Z) : response :=
  {| status := code; header := []; body := EmptyString |}.

(** [http.NotFound(w, r)]. *)
Definition NotFound : response :=
  {| status := StatusNotFound;
     header := [("Content-Type", "text/plain; charset=utf-8");
                ("X-Content-Type-Options", "nosniff")];
     body := "404 page not found" ++ String (ascii_of_nat 10) EmptyString |}.

Inductive log_entry :=
| LogNotGoGet (r : request)
| LogRequest (pkgName : string)
| LogNoMatch (pkgName : string)
| LogExecFailed (pkgName : string)
| LogError.

(** What a call of the handler ends in: a response, or a run-time panic
    (which [net/http] recovers from by dropping the connection). *)
Inductive outcome :=
| Responded (resp : response)
| Panicked.

(** ** The rule selection loop of [handler] *)

Definition slash : ascii := "/"%char.

(** The first two conjuncts of the loop's condition. *)
Definition candidate (pkgName : string) (components : list string)
    (path : importPath) : bool :=
  (NbComponents path <=? Z.of_nat (length components))%Z
  && Go.HasPrefix pkgName (Prefix path).

(** The loop variables [p], [pi], [pl]; [p] points into [conf.Paths]. *)
Record selection := Selection {
  sel_p : option importPath;
  sel_pi : nat;
  sel_pl : nat
}.

Definition sel0 : selection :=
  {| sel_p := None; sel_pi := 0; sel_pl := 0 |}.

Definition loopBody (pkgName : string) (components : list string)
    (i : nat) (path : importPath) (st : selection) : selection :=
  if candidate pkgName components path
     && (sel_pl st <=? Go.len (Prefix path))%nat
  then {| sel_p := Some path; sel_pi := i; sel_pl := Go.len (Prefix path) |}
  else st.

Fixpoint loopFrom (pkgName : string) (components : list string)
    (i : nat) (paths : list importPath) (st : selection) : selection :=
  match paths with
  | [] => st
  | path :: rest =>
      loopFrom pkgName components (S i) rest
        (loopBody pkgName components i path st)
  end.

Definition selectPath (paths : list importPath) (pkgName : string)
    : selection :=
  loopFrom pkgName (Go.Split pkgName slash) 0 paths sel0.


(** [r], at index [k] of the table, is a candidate, no candidate has a
    longer prefix, and every candidate after it has a shorter one. *)
Definition last_longest (pkgName : string) (paths : list importPath)
    (k : nat) (r : importPath) : Prop :=
  paths !! k = Some r /\
  candidate pkgName (Go.Split pkgName slash) r = true /\
  forall j r', paths !! j = Some r' ->
    candidate pkgName (Go.Split pkgName slash) r' = true ->
    Go.len (Prefix r') <= Go.len (Prefix r) /\
    (k < j -> Go.len (Prefix r') < Go.len (Prefix r)).

(** ** The server: what [main] builds and [handler] runs in *)

Definition dquote : string := String (ascii_of_nat 34) EmptyString.
Definition newline : string := String (ascii_of_nat 10) EmptyString.

(** The text of [mainTemplate] (after the trimmed leading comment). *)
Definition mainTemplateText : string :=
  "<html>" ++ newline ++
  "  <head>" ++ newline ++
  "    <meta name=" ++ dquote ++ "go-import" ++ dquote ++
  " content=" ++ dquote ++ "{{ .Prefix }} {{ .VCS }} {{ .Repo }}" ++ dquote ++
  ">" ++ newline ++
  "  </head>" ++ newline ++
  "  <body>" ++ newline ++
  "  </body>" ++ newline ++
  "</html>" ++ newline.

Definition templateNameForImportPath (i : nat) : string :=
  "path-" ++ Go.Itoa i.

Section Engine.

Context `{TemplateEngine}.

(** The process-wide state: the configuration that [main] hands to the
    handler's closure, the name space of the global [mainTemplate], and
    what the standard logger has received. *)
Record server := Server {
  conf : config;
  mainTemplate : gmap string template;
  logged : list log_entry
}.

Definition logPrintf (e : log_entry) (s : server) : server :=
  {| conf := conf s; mainTemplate := mainTemplate s;
     logged := logged s ++ [e] |}.

(** [mainTemplate.ExecuteTemplate(w, name, data)]: an error when the name
    is not defined. *)
Definition ExecuteTemplate (set : gmap string template) (name : string)
    (d : data) : option string :=
  match set !! name with
  | Some t => Execute t d
  | None => None
  end.

(** The package-level [var mainTemplate = template.Must(...)]. *)
Definition initMainTemplate : option (gmap string template) :=
  match Parse mainTemplateText with
  | Some t => Some {[ "main" := t ]}
  | None => None
  end.

(** One round of the loop of [main] over [conf.Paths]. *)
Definition setNbComponents (p : importPath) : importPath :=
  if (NbComponents p <=? 0)%Z
  then {| Prefix := Prefix p;
          NbComponents := Z.of_nat (length (Go.Split (Prefix p) slash));
          VCS := VCS p;
          RepoTemplate := RepoTemplate p |}
  else p.

(** The loop of [main]: [None] when [template.Must] panics. The text of
    a rule is taken to define the one template of its name; a text with
    [{{define}}] or [{{block}}], which gives the shared set further names,
    is not covered. *)
Fixpoint mainLoop (i : nat) (paths : list importPath)
    (set : gmap string template)
    : option (list importPath * gmap string template) :=
  match paths with
  | [] => Some ([], set)
  | p0 :: rest =>
      let p := setNbComponents p0 in
      let name := templateNameForImportPath i in
      match Parse (RepoTemplate p) with
      | None => None
      | Some t =>
          match mainLoop (S i) rest (<[name := t]> set) with
          | Some (rest', set') => Some (p :: rest', set')
          | None => None
          end
      end
  end.

Inductive startup :=
| Serving (s : server)
| Fatal.

(** [main], from the decoded configuration to the call of
    [http.ListenAndServe]. *)
Definition main (c : config) : startup :=
  match initMainTemplate with
  | None => Fatal
  | Some set0 =>
      match mainLoop 0 (Paths c) set0 with
      | None => Fatal
      | Some (paths, set) =>
          Serving {| conf := {| Host := Host c; Port := Port c;
                                TlsConf := TlsConf c; Paths := paths |};
                     mainTemplate := set;
                     logged := [] |}
      end
  end.

(** [handler(conf, w, r)]. *)
Definition handler (r : request) (s : server) : outcome * server :=
  if negb (String.eqb (Go.Get (r_Query r) "go-get") "1") then
    (Responded (WriteHeader StatusBadRequest), logPrintf (LogNotGoGet r) s)
  else
    let pkgName := r_Host r ++ r_Path r in
    let components := Go.Split pkgName slash in
    let s := logPrintf (LogRequest pkgName) s in
    let st := loopFrom pkgName components 0 (Paths (conf s)) sel0 in
    match sel_p st with
    | None => (Responded NotFound, logPrintf (LogNoMatch pkgName) s)
    | Some p =>
        let tmplName := templateNameForImportPath (sel_pi st) in
        match ExecuteTemplate (mainTemplate s) tmplName
                (Components components) with
        | None => (Responded NotFound, logPrintf (LogExecFailed pkgName) s)
        | Some repo =>
            match Go.slice_to components (NbComponents p) with
            | None => (Panicked, s)
            | Some firsts =>
                let mi := {| mi_Prefix := Go.Join firsts "/";
                             mi_VCS := VCS p;
                             mi_Repo := repo |} in
                match ExecuteTemplate (mainTemplate s) "main" (Meta mi) with
                | None =>
                    (Responded (WriteHeader StatusInternalServerError),
                     logPrintf LogError s)
                | Some html =>
                    (Responded {| status := StatusOK;
                                  header := [("Content-Type", "text/html")];
                                  body := html |}, s)
                end
            end
        end
    end.

(** The resolution inside [handler], between the go-get test and the
    rendering of the page. *)
Inductive resolution :=
| NoMatch
| ExecFailed
| SliceOutOfRange
| Resolved (mi : metaImport).

Definition resolve (s : server) (pkgName : string) : resolution :=
  let components := Go.Split pkgName slash in
  let st := selectPath (Paths (conf s)) pkgName in
  match sel_p st with
  | None => NoMatch
  | Some p =>
      match ExecuteTemplate (mainTemplate s)
              (templateNameForImportPath (sel_pi st))
              (Components components) with
      | None => ExecFailed
      | Some repo =>
          match Go.slice_to components (NbComponents p) with
          | None => SliceOutOfRange
          | Some firsts =>
              Resolved {| mi_Prefix := Go.Join firsts "/";
                          mi_VCS := VCS p;
                          mi_Repo := repo |}
          end
      end
  end.

(** What [handler] does with a resolution: the two not-found exits, the
    panic of the slice expression, and the rendering of the page. *)
Definition respond (s : server) (pkgName : string) (res : resolution)
    : outcome * server :=
  match res with
  | NoMatch => (Responded NotFound, logPrintf (LogNoMatch pkgName) s)
  | ExecFailed => (Responded NotFound, logPrintf (LogExecFailed pkgName) s)
  | SliceOutOfRange => (Panicked, s)
  | Resolved mi =>
      match ExecuteTemplate (mainTemplate s) "main" (Meta mi) with
      | None =>
          (Responded (WriteHeader StatusInternalServerError),
           logPrintf LogError s)
      | Some html =>
          (Responded {| status := StatusOK;
                        header := [("Content-Type", "text/html")];
                        body := html |}, s)
      end
  end.

(** The states the server goes through: the one [main] starts it in, and
    the one each handled request leaves. *)
Inductive serving (c : config) : server -> Prop :=
| serving_start (s : server) :
    main c = Serving s -> serving c s
| serving_handled (s : server) (r : request) :
    serving c s -> serving c (handler r s).2.

End Engine.

(** ** A small engine to run the model on concrete configurations

    Literal text, [{{index . n}}] on the components and the three fields of
    the page; it escapes nothing. *)

Module Mini.

Inductive piece :=
| Text (s : string)
| Index (n : nat)
| FieldPrefix
| FieldVCS
| FieldRepo.

(** Cut a text at [{{] and [}}]: [(true, a)] is the action [a]. *)
Fixpoint chunks (s : string) (inAction : bool) (acc : string)
    : option (list (bool * string)) :=
  match s with
  | EmptyString => if inAction then None else Some [(false, acc)]
  | String c s' =>
      let continue := chunks s' inAction (acc ++ String c EmptyString) in
      match s' with
      | String c' rest =>
          if negb inAction && Ascii.eqb c "{" && Ascii.eqb c' "{" then
            cons (false, acc) <$> chunks rest true EmptyString
          else if inAction && Ascii.eqb c "}" && Ascii.eqb c' "}" then
            cons (true, acc) <$> chunks rest false EmptyString
          else continue
      | EmptyString => continue
      end
  end.

Definition words (s : string) : list string :=
  filter (fun w => w <> EmptyString) (Go.Split s " "%char).

Definition action (a : string) : option piece :=
  match words a with
  | [w] =>
      if String.eqb w ".Prefix" then Some FieldPrefix
      else if String.eqb w ".VCS" then Some FieldVCS
      else if String.eqb w ".Repo" then Some FieldRepo
      else None
  | [f; dot; n] =>
      if String.eqb f "index" && String.eqb dot "." then
        (fun u => Index (Nat.of_uint u)) <$> NilEmpty.uint_of_string n
      else None
  | _ => None
  end.

Definition parse (text : string) : option (list piece) :=
  chunks text false EmptyString ≫=
  mapM (fun c : bool * string =>
          if c.1 then action c.2 else Some (Text c.2)).

Definition run (d : data) (p : piece) : option string :=
  match p, d with
  | Text s, _ => Some s
  | Index n, Components elems => elems !! n
  | FieldPrefix, Meta mi => Some (mi_Prefix mi)
  | FieldVCS, Meta mi => Some (mi_VCS mi)
  | FieldRepo, Meta mi => Some (mi_Repo mi)
  | _, _ => None
  end.

Definition execute (t : list piece) (d : data) : option string :=
  foldr String.append EmptyString <$> mapM (run d) t.

#[export] Instance engine : TemplateEngine :=
  {| template := list piece; Parse := parse; Execute := execute |}.

End Mini.

(** ** A configuration to run the model on *)

Module Example.

Import Mini.

(** Two rules: a sub-path whose [nb_components] is left out, declared
    before the host-wide rule it overrides. *)
Definition rules : list jsonPath :=
  [ JsonPath (Some "example.com/foo") None (Some "git")
      (Some "https://github.com/org/{{index . 2}}");
    JsonPath (Some "example.com") (Some 2%Z) (Some "hg")
      (Some "https://hg.example.com/{{index . 1}}") ].

Definition cfg : config :=
  {| Host := "0.0.0.0"; Port := 8080; TlsConf := None;
     Paths := decodePath <$> rules |}.

Definition nothing : server :=
  {| conf := cfg; mainTemplate := ∅; logged := [] |}.

(** The server [main] starts on [cfg]. *)
Definition started : server :=
  match main cfg with
  | Serving s => s
  | Fatal => nothing
  end.

Definition goGet (host path : string) : request :=
  {| r_Host := host; r_Path := path;
     r_Query := {[ "go-get" := ["1"] ]} |}.

Definition plain (host path : string) : request :=
  {| r_Host := host; r_Path := path; r_Query := ∅ |}.

(** A rule with nothing in it, in both variants. *)
Definition emptyRule : jsonPath := JsonPath None None None None.

Definition emptyCfg : config :=
  {| Host := "0.0.0.0"; Port := 8080; TlsConf := None;
     Paths := [decodePath emptyRule] |}.

End Example.

(** ** The variant with a validated configuration ([main.go])

    Its rules have no [NbComponents]; the struct tags of its configuration
    are checked by [validator.Struct] before the server starts. The tags
    [hostname_port], [min=1s] and [file] are the validator library's and the
    file system's: their verdicts are parameters, taken to come back; a
    validator that panics on a tag is not covered. *)

Module MainGo.

Record importPath := ImportPath {
  Prefix : string;          (* validate:"required" *)
  VCS : string;
  RepoTemplate : string     (* validate:"required" *)
}.

Record tls := Tls {
  Cert : string;            (* validate:"required,file" *)
  PrivKey : string          (* validate:"required,file" *)
}.

Record config := Config {
  Addr : string;            (* validate:"hostname_port" *)
  ReadTimeout : Z;          (* validate:"min=1s" *)
  TLS : option tls;
  Paths : list importPath   (* validate:"min=1,dive" *)
}.

Section Validate.

Variable hostname_port : string -> bool.
Variable min_1s : Z -> bool.
Variable file : string -> bool.

(** The tag [required] on a string: it is not the zero value. *)
Definition required (s : string) : bool := negb (String.eqb s EmptyString).

Definition validate_importPath (p : importPath) : bool :=
  required (Prefix p) && required (RepoTemplate p).

Definition validate_tls (t : tls) : bool :=
  required (Cert t) && file (Cert t)
  && required (PrivKey t) && file (PrivKey t).

(** [v.Struct(conf)]: [true] when there is no validation error. *)
Definition Struct (c : config) : bool :=
  hostname_port (Addr c)
  && min_1s (ReadTimeout c)
  && match TLS c with Some t => validate_tls t | None => true end
  && (1 <=? length (Paths c))%nat
  && forallb validate_importPath (Paths c).

Inductive startup :=
| Serving (c : config)
| Fatal.

(** [main], from the decoded configuration to the start of the
    server: a validation error ends in [log.Fatalf]. *)
Definition main (c : config) : startup :=
  if Struct c then Serving c else Fatal.

End Validate.

Record pkgInfo := PkgInfo {
  Name : string;
  pi_VCS : string;
  Repo : string
}.

(** The loop of [handler]: the first rule whose prefix the package path
    starts with, and [break]. *)
Fixpoint firstMatch (pkgName : string) (paths : list importPath)
    : option importPath :=
  match paths with
  | [] => None
  | path :: rest =>
      if Go.HasPrefix pkgName (Prefix path) then Some path
      else firstMatch pkgName rest
  end.

Section Handler.

Context `{TemplateEngine}.

(** [htmlTemplate.Execute(html, pkgInfo)]: [None] is an error. *)
Variable htmlTemplate : pkgInfo -> option string.

(** [handler(conf, w, r)]; the state is what the logger has received. The
    template of the rule is parsed at each request, under
    [template.Must]. *)
Definition handler (conf : config) (r : request) (log : list log_entry)
    : outcome * list log_entry :=
  if negb (String.eqb (Go.Get (r_Query r) "go-get") "1") then
    (Responded (WriteHeader StatusBadRequest), (log ++ [LogNotGoGet r])%list)
  else
    let pkgName := r_Host r ++ r_Path r in
    let log := (log ++ [LogRequest pkgName])%list in
    match firstMatch pkgName (Paths conf) with
    | None => (Responded NotFound, (log ++ [LogNoMatch pkgName])%list)
    | Some p =>
        match Parse (RepoTemplate p) with
        | None => (Panicked, log)
        | Some tmpl =>
            let components := Go.Split pkgName slash in
            match Execute tmpl (Components components) with
            | None => (Responded NotFound, (log ++ [LogError])%list)
            | Some repo =>
                let info := {| Name := pkgName; pi_VCS := VCS p;
                               Repo := repo |} in
                match htmlTemplate info with
                | None =>
                    (Responded (WriteHeader StatusInternalServerError),
                     (log ++ [LogError])%list)
                | Some html =>
                    (Responded {| status := StatusOK;
                                  header := [("Content-Type", "text/html")];
                                  body := html |}, log)
                end
            end
        end
    end.

End Handler.

End MainGo.

(** ** The variant with the longest prefix and no component count

    [src/unnamed/part_001]: the rule is the last of those with the longest
    matching prefix, the page names the whole package path. *)

Module LongestPrefix.

Record importPath := ImportPath {
  Prefix : string;
  VCS : string;
  RepoTemplate : string
}.

Record config := Config {
  Host : string;
  Port : Z;
  TlsConf : option tls;
  Paths : list importPath
}.

Record pkgInfo := PkgInfo {
  Name : string;
  pi_VCS : string;
  Repo : string
}.

(** One round of the loop on the variables [p] and [pl]. *)
Definition loopBody (pkgName : string) (path : importPath)
    (st : option importPath * nat) : option importPath * nat :=
  if Go.HasPrefix pkgName (Prefix path) && (st.2 <=? Go.len (Prefix path))%nat
  then (Some path, Go.len (Prefix path))
  else st.

Fixpoint loop (pkgName : string) (paths : list importPath)
    (st : option importPath * nat) : option importPath * nat :=
  match paths with
  | [] => st
  | path :: rest => loop pkgName rest (loopBody pkgName path st)
  end.

Section Handler.

Context `{TemplateEngine}.

Variable htmlTemplate : pkgInfo -> option string.

Definition handler (conf : config) (r : request) (log : list log_entry)
    : outcome * list log_entry :=
  if negb (String.eqb (Go.Get (r_Query r) "go-get") "1") then
    (Responded (WriteHeader StatusBadRequest), (log ++ [LogNotGoGet r])%list)
  else
    let pkgName := r_Host r ++ r_Path r in
    let log := (log ++ [LogRequest pkgName])%list in
    match (loop pkgName (Paths conf) (None, 0)).1 with
    | None => (Responded NotFound, (log ++ [LogNoMatch pkgName])%list)
    | Some p =>
        match Parse (RepoTemplate p) with
        | None => (Panicked, log)
        | Some tmpl =>
            let components := Go.Split pkgName slash in
            match Execute tmpl (Components components) with
            | None => (Responded NotFound, (log ++ [LogError])%list)
            | Some repo =>
                let info := {| Name := pkgName; pi_VCS := VCS p;
                               Repo := repo |} in
                match htmlTemplate info with
                | None =>
                    (Responded (WriteHeader StatusInternalServerError),
                     (log ++ [LogError])%list)
                | Some html =>
                    (Responded {| status := StatusOK;
                                  header := [("Content-Type", "text/html")];
                                  body := html |}, log)
                end
            end
        end
    end.

End Handler.

End LongestPrefix.

(** A rule of the variant with [NbComponents], seen by the variant
    without. *)
Definition withoutNbComponents (p : importPath) : LongestPrefix.importPath :=
  {| LongestPrefix.Prefix := Prefix p;
     LongestPrefix.VCS := VCS p;
     LongestPrefix.RepoTemplate := RepoTemplate p |}.

(** And back, with a component count. *)
Definition withNbComponents (n : Z) (p : LongestPrefix.importPath)
    : importPath :=
  {| Prefix := LongestPrefix.Prefix p;
     NbComponents := n;
     VCS := LongestPrefix.VCS p;
     RepoTemplate := LongestPrefix.RepoTemplate p |}.

(** ** The first variant

    [src/unnamed/part_000], second file: the first rule whose prefix
    matches gives its template, an empty template counts as no rule, and
    the VCS is the [git] of the page. *)

Module FirstMatch.

Record importPath := ImportPath {
  Prefix : string;
  RepoTemplate : string
}.

Record config := Config {
  Host : string;
  Port : Z;
  TlsConf : option tls;
  Paths : list importPath
}.

Record pkgInfo := PkgInfo {
  Name : string;
  Repo : string
}.

(** The loop on [tmplStr], with its [break]. *)
Fixpoint loop (pkgName : string) (paths : list importPath) : string :=
  match paths with
  | [] => EmptyString
  | path :: rest =>
      if Go.HasPrefix pkgName (Prefix path) then RepoTemplate path
      else loop pkgName rest
  end.

Section Handler.

Context `{TemplateEngine}.

Variable htmlTemplate : pkgInfo -> option string.

Definition handler (conf : config) (r : request) (log : list log_entry)
    : outcome * list log_entry :=
  if negb (String.eqb (Go.Get (r_Query r) "go-get") "1") then
    (Responded (WriteHeader StatusBadRequest), (log ++ [LogNotGoGet r])%list)
  else
    let pkgName := r_Host r ++ r_Path r in
    let log := (log ++ [LogRequest pkgName])%list in
    let tmplStr := loop pkgName (Paths conf) in
    if String.eqb tmplStr EmptyString then
      (Responded NotFound, (log ++ [LogNoMatch pkgName])%list)
    else
      match Parse tmplStr with
      | None => (Panicked, log)
      | Some tmpl =>
          let components := Go.Split pkgName slash in
          match Execute tmpl (Components components) with
          | None => (Responded NotFound, (log ++ [LogError])%list)
          | Some repo =>
              match htmlTemplate {| Name := pkgName; Repo := repo |} with
              | None =>
                  (Responded (WriteHeader StatusInternalServerError),
                   (log ++ [LogError])%list)
              | Some html =>
                  (Responded {| status := StatusOK;
                                header := [("Content-Type", "text/html")];
                                body := html |}, log)
              end
          end
      end.

End Handler.

End FirstMatch.

(** * Properties *)

(** ** The library functions *)

Lemma app_String (c : ascii) (s t : string) :
  String c s ++ t = String c (s ++ t).
Proof. reflexivity. Qed.

Lemma string_app_inv_head (p a b : string) : p ++ a = p ++ b -> a = b.
Proof.
  induction p as [|c p IH]; [done|].
  rewrite !app_String. intros E. apply IH. congruence.
Qed.

Lemma take_bytes_app (p t : string) :
  Go.take_bytes (Go.len p) (p ++ t) = p.
Proof.
  induction p as [|c p IH]; simpl.
  - by destruct t.
  - by rewrite IH.
Qed.

Lemma len_app (a b : string) : Go.len (a ++ b) = Go.len a + Go.len b.
Proof. unfold Go.len. induction a; simpl; auto. Qed.

Lemma HasPrefix_spec (s p : string) :
  Go.HasPrefix s p = true <-> exists t, s = p ++ t.
Proof.
  unfold Go.HasPrefix. split.
  - intros [_ Heq%String.eqb_eq]%andb_true_iff.
    revert s Heq. induction p as [|c p IH]; intros s Heq.
    + by exists s.
    + destruct s as [|c' s]; simpl in Heq; [done|].
      injection Heq as -> Heq. destruct (IH s Heq) as [t ->]. by exists t.
  - intros [t ->]. rewrite take_bytes_app, String.eqb_refl, len_app.
    apply andb_true_iff. split; [apply Nat.leb_le; lia | done].
Qed.

(** Two prefixes of one string that have the same length are equal. *)
Lemma HasPrefix_same_len (s p q : string) :
  Go.HasPrefix s p = true -> Go.HasPrefix s q = true ->
  Go.len p = Go.len q -> p = q.
Proof.
  unfold Go.HasPrefix.
  intros [_ Hp%String.eqb_eq]%andb_true_iff [_ Hq%String.eqb_eq]%andb_true_iff E.
  rewrite <- Hp, <- Hq. by rewrite E.
Qed.

Lemma proper_prefix_len (p q : string) :
  Go.HasPrefix q p = true -> p <> q -> Go.len p < Go.len q.
Proof.
  intros [t ->]%HasPrefix_spec Hne. rewrite len_app.
  destruct t as [|c t]; simpl.
  - exfalso. apply Hne. clear Hne.
    induction p as [|c p IH]; [done|]. by rewrite app_String, <- IH.
  - change (Go.len (String c t)) with (S (Go.len t)). lia.
Qed.

Lemma Split_length (s : string) (sep : ascii) :
  1 <= length (Go.Split s sep).
Proof.
  induction s as [|c s IH]; simpl; [lia|].
  destruct (Ascii.eqb c sep); simpl; [lia|].
  destruct (Go.Split s sep); simpl in *; lia.
Qed.

Lemma slice_to_Some {A} (l : list A) (n : Z) :
  (0 <= n <= Z.of_nat (length l))%Z ->
  Go.slice_to l n = Some (take (Z.to_nat n) l).
Proof.
  intros [H0 H1]. unfold Go.slice_to.
  destruct (Z.leb_spec 0 n); [|lia]. destruct (Z.leb_spec n (Z.of_nat (length l))); [done|lia].
Qed.

Lemma Itoa_inj (i j : nat) : Go.Itoa i = Go.Itoa j -> i = j.
Proof.
  unfold Go.Itoa. intros E.
  assert (E' : Some (Nat.to_uint i) = Some (Nat.to_uint j)).
  { rewrite <- !NilEmpty.usu. by rewrite E. }
  injection E' as E'.
  rewrite <- (DecimalNat.Unsigned.of_to i), <- (DecimalNat.Unsigned.of_to j).
  by rewrite E'.
Qed.

Lemma templateNameForImportPath_inj (i j : nat) :
  templateNameForImportPath i = templateNameForImportPath j -> i = j.
Proof.
  unfold templateNameForImportPath. intros E.
  by apply Itoa_inj, (string_app_inv_head "path-").
Qed.

Lemma templateNameForImportPath_main (i : nat) :
  templateNameForImportPath i <> "main".
Proof. unfold templateNameForImportPath. rewrite app_String. congruence. Qed.

(** ** The selection loop *)

Section Loop.

Variable pkgName : string.
Variable components : list string.

Local Abbreviation cand := (candidate pkgName components).
Local Abbreviation plen r := (Go.len (Prefix r)).

(** What the loop leaves, from any index and any state of [p], [pi],
    [pl]: the state it started from, when every candidate is shorter
    than [pl]; otherwise the last of the longest candidates. *)
Lemma loopFrom_spec (paths : list importPath) :
  forall (i : nat) (st : selection),
    (loopFrom pkgName components i paths st = st /\
     forall j r, paths !! j = Some r -> cand r = true ->
                 plen r < sel_pl st)
    \/ (exists k r,
           loopFrom pkgName components i paths st
           = Selection (Some r) (i + k) (plen r) /\
           sel_pl st <= plen r /\
           paths !! k = Some r /\ cand r = true /\
           forall j r', paths !! j = Some r' -> cand r' = true ->
             plen r' <= plen r /\ (k < j -> plen r' < plen r)).
Proof.
  induction paths as [|path rest IH]; intros i st; simpl.
  - left. split; [done|]. intros j r Hj. by rewrite lookup_nil in Hj.
  - unfold loopBody.
    destruct (cand path) eqn:Hc; simpl;
      [destruct (Nat.leb_spec (sel_pl st) (plen path)) as [Hle|Hlt]|].
    + (* the rule replaces the selection *)
      destruct (IH (S i) (Selection (Some path) i (plen path)))
        as [[-> Hall] | (k & r & -> & Hle' & Hk & Hr & Hmax)];
        simpl in *; right.
      * exists 0, path. rewrite Nat.add_0_r.
        do 4 (split; [done|]). intros [|j] r' Hj Hcr; simpl in Hj.
        -- injection Hj as <-. lia.
        -- specialize (Hall j r' Hj Hcr). lia.
      * exists (S k), r. replace (i + S k) with (S i + k) by lia.
        split; [done|]. split; [lia|]. do 2 (split; [done|]).
        intros [|j] r' Hj Hcr; simpl in Hj.
        -- injection Hj as <-. lia.
        -- destruct (Hmax j r' Hj Hcr). lia.
    + (* a candidate, but shorter than the selection *)
      destruct (IH (S i) st)
        as [[-> Hall] | (k & r & -> & Hle' & Hk & Hr & Hmax)].
      * left. split; [done|]. intros [|j] r Hj Hcr; simpl in Hj.
        -- by injection Hj as <-.
        -- by apply (Hall j r).
      * right. exists (S k), r. replace (i + S k) with (S i + k) by lia.
        do 4 (split; [done|]). intros [|j] r' Hj Hcr; simpl in Hj.
        -- injection Hj as <-. lia.
        -- destruct (Hmax j r' Hj Hcr). lia.
    + (* not a candidate *)
      destruct (IH (S i) st)
        as [[-> Hall] | (k & r & -> & Hle' & Hk & Hr & Hmax)].
      * left. split; [done|]. intros [|j] r Hj Hcr; simpl in Hj.
        -- injection Hj as <-. congruence.
        -- by apply (Hall j r).
      * right. exists (S k), r. replace (i + S k) with (S i + k) by lia.
        do 4 (split; [done|]). intros [|j] r' Hj Hcr; simpl in Hj.
        -- injection Hj as <-. congruence.
        -- destruct (Hmax j r' Hj Hcr). lia.
Qed.

(** The state after the loop has the shape [p = &conf.Paths[pi]],
    [pl = len(p.Prefix)], or is the initial one. *)
Lemma loopFrom_sel0 (paths : list importPath) :
  (loopFrom pkgName components 0 paths sel0 = sel0 /\
   forall j r, paths !! j = Some r -> cand r = false)
  \/ (exists k r,
         loopFrom pkgName components 0 paths sel0
         = Selection (Some r) k (plen r) /\
         paths !! k = Some r /\ cand r = true /\
         forall j r', paths !! j = Some r' -> cand r' = true ->
           plen r' <= plen r /\ (k < j -> plen r' < plen r)).
Proof.
  destruct (loopFrom_spec paths 0 sel0)
    as [[E Hall] | (k & r & E & _ & Hk & Hr & Hmax)].
  - left. split; [done|]. intros j r Hj.
    destruct (cand r) eqn:Hc; [|done].
    specialize (Hall j r Hj Hc). simpl in Hall. lia.
  - right. by exists k, r.
Qed.

End Loop.

(** The selection is the last of the longest candidates, and only that. *)
Lemma selectPath_last_longest (paths : list importPath) (pkgName : string)
    (k : nat) (r : importPath) :
  selectPath paths pkgName = Selection (Some r) k (Go.len (Prefix r))
  <-> last_longest pkgName paths k r.
Proof.
  unfold selectPath, last_longest.
  destruct (loopFrom_sel0 pkgName (Go.Split pkgName slash) paths)
    as [[E Hnone] | (k' & r' & E & Hk & Hr & Hmax)]; rewrite E; split.
  - done.
  - intros (Hk & Hr & _). rewrite (Hnone k r Hk) in Hr. done.
  - intros [= -> ->]. done.
  - intros (Hk2 & Hr2 & Hmax2).
    destruct (Hmax k r Hk2 Hr2) as [Ha Hb].
    destruct (Hmax2 k' r' Hk Hr) as [Hc Hd].
    assert (k = k') as -> by lia.
    rewrite Hk in Hk2. by injection Hk2 as ->.
Qed.

Lemma selectPath_shape (paths : list importPath) (pkgName : string) :
  selectPath paths pkgName = sel0
  \/ exists k r, selectPath paths pkgName
                 = Selection (Some r) k (Go.len (Prefix r)).
Proof.
  unfold selectPath.
  destruct (loopFrom_sel0 pkgName (Go.Split pkgName slash) paths)
    as [[E _] | (k & r & E & _)]; [by left|right; by exists k, r].
Qed.

(** No rule is selected exactly when no rule is a candidate. *)
Lemma selectPath_None (paths : list importPath) (pkgName : string) :
  sel_p (selectPath paths pkgName) = None
  <-> forall r, r ∈ paths ->
        candidate pkgName (Go.Split pkgName slash) r = false.
Proof.
  unfold selectPath.
  destruct (loopFrom_sel0 pkgName (Go.Split pkgName slash) paths)
    as [[E Hnone] | (k & r & E & Hk & Hr & _)]; rewrite E; simpl; split.
  - intros _ r [j Hj]%list_elem_of_lookup. by apply (Hnone j).
  - done.
  - done.
  - intros Hall. rewrite (Hall r) in Hr; [done|].
    apply list_elem_of_lookup. by exists k.
Qed.

Lemma last_longest_unique (pkgName : string) (paths : list importPath)
    (k k' : nat) (r r' : importPath) :
  last_longest pkgName paths k r -> last_longest pkgName paths k' r' ->
  k = k' /\ r = r'.
Proof.
  intros E%selectPath_last_longest E'%selectPath_last_longest.
  rewrite E in E'. by injection E' as -> ->.
Qed.

Lemma candidate_spec (pkgName : string) (r : importPath) :
  candidate pkgName (Go.Split pkgName slash) r = true
  <-> (NbComponents r <= Z.of_nat (length (Go.Split pkgName slash)))%Z
      /\ exists t, pkgName = Prefix r ++ t.
Proof.
  unfold candidate.
  by rewrite andb_true_iff, Z.leb_le, HasPrefix_spec.
Qed.

(** A tie is between rules that have the same prefix. *)
Lemma tie_same_prefix (pkgName : string) (components : list string)
    (r r' : importPath) :
  candidate pkgName components r = true ->
  candidate pkgName components r' = true ->
  Go.len (Prefix r) = Go.len (Prefix r') -> Prefix r = Prefix r'.
Proof.
  unfold candidate. intros [_ Hr]%andb_true_iff [_ Hr']%andb_true_iff.
  by apply HasPrefix_same_len with pkgName.
Qed.

(** C1. Longest prefix wins, whatever the order of declaration: when the
    prefix of [r1] is a proper prefix of the prefix of [r2] and both rules
    are candidates for the path, the table of the two rules selects [r2]
    in either order; and in every table that holds both, the rule selected
    is not [r1] and its prefix is at least as long as that of [r2]. *)
Theorem longest_prefix_wins (r1 r2 : importPath) (pkgName : string) :
  Go.HasPrefix (Prefix r2) (Prefix r1) = true ->
  Prefix r1 <> Prefix r2 ->
  candidate pkgName (Go.Split pkgName slash) r1 = true ->
  candidate pkgName (Go.Split pkgName slash) r2 = true ->
  selectPath [r1; r2] pkgName = Selection (Some r2) 1 (Go.len (Prefix r2))
  /\ selectPath [r2; r1] pkgName = Selection (Some r2) 0 (Go.len (Prefix r2))
  /\ forall (paths : list importPath) (i j : nat),
       paths !! i = Some r1 -> paths !! j = Some r2 ->
       exists k r,
         selectPath paths pkgName = Selection (Some r) k (Go.len (Prefix r))
         /\ paths !! k = Some r /\ k <> i
         /\ Go.len (Prefix r2) <= Go.len (Prefix r).
Proof.
  intros Hpre Hne Hc1 Hc2.
  pose proof (proper_prefix_len _ _ Hpre Hne) as Hlt.
  split; [|split].
  - apply selectPath_last_longest. do 2 (split; [done|]).
    intros [|[|j]] r' Hj _; simpl in Hj; try done; injection Hj as <-; lia.
  - apply selectPath_last_longest. do 2 (split; [done|]).
    intros [|[|j]] r' Hj _; simpl in Hj; try done; injection Hj as <-; lia.
  - intros paths i j Hi Hj.
    destruct (selectPath_shape paths pkgName) as [E | (k & r & E)].
    + assert (Hn : sel_p (selectPath paths pkgName) = None) by by rewrite E.
      rewrite selectPath_None in Hn. rewrite (Hn r1) in Hc1; [done|].
      apply list_elem_of_lookup. by exists i.
    + exists k, r. split; [done|].
      apply selectPath_last_longest in E as (Hk & _ & Hmax).
      destruct (Hmax j r2 Hj Hc2) as [Hle _].
      split; [done|]. split; [|done].
      intros ->. rewrite Hi in Hk. injection Hk as <-. lia.
Qed.

Lemma longest_prefix_wins_witness :
  let r1 := ImportPath "a" 1 "git" "https://one/{{index . 1}}" in
  let r2 := ImportPath "a/b" 2 "hg" "https://two/{{index . 2}}" in
  selectPath [r1; r2] "a/b/c" = Selection (Some r2) 1 3
  /\ selectPath [r2; r1] "a/b/c" = Selection (Some r2) 0 3.
Proof.
  intros r1 r2.
  destruct (longest_prefix_wins r1 r2 "a/b/c") as (H1 & H2 & _);
    [reflexivity | discriminate | reflexivity | reflexivity |].
  split; [exact H1 | exact H2].
Defined.

(** C2. The candidates of a path are the rules whose [NbComponents] is at
    most the number of slash-separated segments of the path and whose
    prefix the path starts with, as a plain string: a rule is selected
    exactly when some rule is such a candidate, and a table of one rule
    selects it exactly when it is one. The rule with prefix ["host/team"]
    and three components is not selected for ["host/team"], is selected for
    ["host/team/repo"], and also for ["host/teams/x"], where the prefix
    ends inside a segment. *)
Theorem candidate_iff_components_and_prefix :
  (forall (paths : list importPath) (pkgName : string),
      (exists p, sel_p (selectPath paths pkgName) = Some p)
      <-> exists r, r ∈ paths
            /\ (NbComponents r
                <= Z.of_nat (length (Go.Split pkgName slash)))%Z
            /\ exists t, pkgName = Prefix r ++ t)
  /\ (forall (r : importPath) (pkgName : string),
        sel_p (selectPath [r] pkgName) = Some r
        <-> (NbComponents r
             <= Z.of_nat (length (Go.Split pkgName slash)))%Z
            /\ exists t, pkgName = Prefix r ++ t)
  /\ (let rule := ImportPath "host/team" 3 "git" "https://h/{{index . 2}}" in
      length (Go.Split "host/team" slash) = 2
      /\ sel_p (selectPath [rule] "host/team") = None
      /\ length (Go.Split "host/team/repo" slash) = 3
      /\ sel_p (selectPath [rule] "host/team/repo") = Some rule
      /\ sel_p (selectPath [rule] "host/teams/x") = Some rule).
Proof.
  split; [|split].
  - intros paths pkgName. split.
    + intros [p Hp].
      destruct (selectPath_shape paths pkgName) as [E | (k & r & E)];
        [by rewrite E in Hp|].
      apply selectPath_last_longest in E as (Hk & Hr & _).
      exists r. split; [apply list_elem_of_lookup; by exists k|].
      by apply candidate_spec.
    + intros (r & Hin & Hc%candidate_spec).
      destruct (sel_p (selectPath paths pkgName)) as [p|] eqn:E; [by exists p|].
      rewrite selectPath_None in E. by rewrite (E r Hin) in Hc.
  - intros r pkgName. rewrite <- candidate_spec.
    unfold selectPath. simpl. unfold loopBody. simpl.
    rewrite andb_true_r.
    destruct (candidate pkgName (Go.Split pkgName slash) r); simpl; by split.
  - repeat split; reflexivity.
Qed.

(** C3. Ties favour the rule declared last: the rule selected is the
    candidate of greatest prefix length, and among the candidates of that
    length the one of greatest index; in the loop, a candidate whose prefix
    is as long as the best so far replaces it. Two rules with one prefix
    select the second. *)
Theorem ties_favor_last_declared :
  (forall (paths : list importPath) (pkgName : string) (k : nat)
          (r : importPath),
      selectPath paths pkgName = Selection (Some r) k (Go.len (Prefix r))
      <-> paths !! k = Some r
          /\ candidate pkgName (Go.Split pkgName slash) r = true
          /\ forall j r', paths !! j = Some r' ->
               candidate pkgName (Go.Split pkgName slash) r' = true ->
               Go.len (Prefix r') <= Go.len (Prefix r)
               /\ (Go.len (Prefix r') = Go.len (Prefix r) -> j <= k))
  /\ (forall (pkgName : string) (components : list string) (i : nat)
             (path : importPath) (st : selection),
        candidate pkgName components path = true ->
        Go.len (Prefix path) = sel_pl st ->
        loopBody pkgName components i path st
        = Selection (Some path) i (Go.len (Prefix path)))
  /\ (let first := ImportPath "a/b" 2 "git" "https://one" in
      let second := ImportPath "a/b" 1 "hg" "https://two" in
      selectPath [first; second] "a/b/c" = Selection (Some second) 1 3
      /\ selectPath [second; first] "a/b/c" = Selection (Some first) 1 3).
Proof.
  split; [|split].
  - intros paths pkgName k r. rewrite selectPath_last_longest.
    unfold last_longest. split; intros (Hk & Hr & Hmax);
      (do 2 (split; [done|])); intros j r' Hj Hc;
      destruct (Hmax j r' Hj Hc); split; lia.
  - intros pkgName components i path st Hc Hlen. unfold loopBody.
    rewrite Hc, <- Hlen, Nat.leb_refl. reflexivity.
  - split; reflexivity.
Qed.

(** ** Start-up and the handler, for any template engine *)

Section EngineProperties.

Context `{TemplateEngine}.

Lemma setNbComponents_fields (p : importPath) :
  Prefix (setNbComponents p) = Prefix p
  /\ VCS (setNbComponents p) = VCS p
  /\ RepoTemplate (setNbComponents p) = RepoTemplate p.
Proof. unfold setNbComponents. by destruct (NbComponents p <=? 0)%Z. Qed.

Lemma setNbComponents_pos (p : importPath) :
  (1 <= NbComponents (setNbComponents p))%Z.
Proof.
  unfold setNbComponents.
  destruct (Z.leb_spec (NbComponents p) 0); simpl; [|lia].
  pose proof (Split_length (Prefix p) slash). lia.
Qed.

(** The loop of [main] fails only on a template that does not parse;
    otherwise it rewrites each rule with [setNbComponents], defines the
    template of rule [k] under the name of index [i + k], and leaves every
    other name of the name space as it was. *)
Lemma mainLoop_Some (paths : list importPath) :
  forall (i : nat) (set : gmap string template) paths' set',
    mainLoop i paths set = Some (paths', set') ->
    paths' = setNbComponents <$> paths
    /\ (forall k p, paths !! k = Some p ->
          exists t, Parse (RepoTemplate p) = Some t
                    /\ set' !! templateNameForImportPath (i + k) = Some t)
    /\ (forall n, (forall k, n <> templateNameForImportPath (i + k)) ->
          set' !! n = set !! n).
Proof.
  induction paths as [|p rest IH]; intros i set paths' set'; simpl.
  - intros [= <- <-]. split; [done|]. split; [|done].
    intros k p Hk. by rewrite lookup_nil in Hk.
  - destruct (setNbComponents_fields p) as (_ & _ & ->).
    destruct (Parse (RepoTemplate p)) as [t|] eqn:Ht; [|done].
    destruct (mainLoop (S i) rest _) as [[rest' set'']|] eqn:E; [|done].
    intros [= <- <-].
    destruct (IH _ _ _ _ E) as (-> & Hdef & Hframe).
    split; [done|]. split.
    + intros [|k] q Hk; simpl in Hk.
      * injection Hk as <-. exists t. split; [done|].
        rewrite Nat.add_0_r, Hframe; [by rewrite lookup_insert_eq|].
        intros k E'%templateNameForImportPath_inj. lia.
      * replace (i + S k) with (S i + k) by lia. by apply Hdef.
    + intros n Hn. rewrite Hframe.
      * apply lookup_insert_ne. specialize (Hn 0).
        rewrite Nat.add_0_r in Hn. congruence.
      * intros k. replace (S i + k) with (i + S k) by lia. apply Hn.
Qed.


(** What [main] hands to the server. *)
Lemma main_Serving (c : config) (s : server) :
  main c = Serving s ->
  Paths (conf s) = setNbComponents <$> Paths c
  /\ logged s = []
  /\ (exists t0, Parse mainTemplateText = Some t0
                 /\ mainTemplate s !! "main" = Some t0)
  /\ forall k p, Paths c !! k = Some p ->
       exists t, Parse (RepoTemplate p) = Some t
                 /\ mainTemplate s !! templateNameForImportPath k = Some t.
Proof.
  unfold main, initMainTemplate.
  destruct (Parse mainTemplateText) as [t0|] eqn:Ht0; [|done].
  destruct (mainLoop 0 (Paths c) _) as [[paths set]|] eqn:E; [|done].
  intros [= <-]. simpl.
  destruct (mainLoop_Some _ _ _ _ _ E) as (-> & Hdef & Hframe).
  split; [done|]. split; [done|]. split.
  - exists t0. split; [done|]. rewrite Hframe; [by rewrite lookup_singleton_eq|].
    intros k E'. symmetry in E'. by apply templateNameForImportPath_main in E'.
  - intros k p Hk. by apply (Hdef k p).
Qed.


(** After the go-get test, [handler] is [resolve] followed by
    [respond]. *)
Lemma handler_go_get (r : request) (s : server) :
  Go.Get (r_Query r) "go-get" = "1" ->
  handler r s
  = respond (logPrintf (LogRequest (r_Host r ++ r_Path r)) s)
      (r_Host r ++ r_Path r) (resolve s (r_Host r ++ r_Path r)).
Proof.
  intros Hq. unfold handler, resolve, selectPath. rewrite Hq. simpl.
  destruct (sel_p _) as [p|]; [|done].
  destruct (ExecuteTemplate _ _ (Components _)) as [repo|]; [|done].
  destruct (Go.slice_to _ _) as [firsts|]; done.
Qed.

Lemma handler_not_go_get (r : request) (s : server) :
  Go.Get (r_Query r) "go-get" <> "1" ->
  handler r s
  = (Responded (WriteHeader StatusBadRequest), logPrintf (LogNotGoGet r) s).
Proof.
  intros Hq. unfold handler.
  destruct (String.eqb_spec (Go.Get (r_Query r) "go-get") "1"); done.
Qed.

(** [handler] only appends to the log. *)
Lemma handler_frame (r : request) (s : server) :
  conf (handler r s).2 = conf s
  /\ mainTemplate (handler r s).2 = mainTemplate s
  /\ exists es, logged (handler r s).2 = (logged s ++ es)%list.
Proof.
  destruct (String.eqb_spec (Go.Get (r_Query r) "go-get") "1") as [Hq|Hq].
  - rewrite (handler_go_get _ _ Hq).
    destruct (resolve s _) as [| | |mi]; simpl;
      try destruct (ExecuteTemplate _ _ _); simpl;
      rewrite <- ?app_assoc; eauto using app_nil_r.
  - rewrite (handler_not_go_get _ _ Hq). simpl. eauto.
Qed.

(** What holds of the configuration and of the templates as long as the
    server runs. *)
Lemma serving_inv (c : config) (s : server) :
  serving c s ->
  Paths (conf s) = setNbComponents <$> Paths c
  /\ (exists t0, Parse mainTemplateText = Some t0
                 /\ mainTemplate s !! "main" = Some t0)
  /\ forall k p, Paths (conf s) !! k = Some p ->
       exists t, Parse (RepoTemplate p) = Some t
                 /\ mainTemplate s !! templateNameForImportPath k = Some t.
Proof.
  induction 1 as [s Hmain | s r _ IH].
  - destruct (main_Serving _ _ Hmain) as (Hp & _ & Hm & Ht).
    do 2 (split; [done|]). intros k p. rewrite Hp, list_lookup_fmap.
    destruct (Paths c !! k) as [p0|] eqn:Hk; [|done].
    intros [= <-]. destruct (setNbComponents_fields p0) as (_ & _ & ->).
    by apply Ht.
  - destruct (handler_frame r s) as (-> & -> & _). exact IH.
Qed.

Lemma serving_NbComponents (c : config) (s : server) (p : importPath) :
  serving c s -> p ∈ Paths (conf s) -> (1 <= NbComponents p)%Z.
Proof.
  intros (Hp & _)%serving_inv. rewrite Hp.
  intros (p0 & -> & _)%list_elem_of_fmap. apply setNbComponents_pos.
Qed.

(** The resolution on a running server: no candidate, or the last of the
    longest candidates, whose template is run and whose first
    [NbComponents] components are joined. *)
Lemma resolve_serving (c : config) (s : server) (pkgName : string) :
  serving c s ->
  (resolve s pkgName = NoMatch
   /\ forall p, p ∈ Paths (conf s) ->
        candidate pkgName (Go.Split pkgName slash) p = false)
  \/ exists k p t,
       last_longest pkgName (Paths (conf s)) k p
       /\ Parse (RepoTemplate p) = Some t
       /\ (1 <= NbComponents p
           <= Z.of_nat (length (Go.Split pkgName slash)))%Z
       /\ resolve s pkgName
          = match Execute t (Components (Go.Split pkgName slash)) with
            | None => ExecFailed
            | Some repo =>
                Resolved
                  {| mi_Prefix :=
                       Go.Join (take (Z.to_nat (NbComponents p))
                                  (Go.Split pkgName slash)) "/";
                     mi_VCS := VCS p;
                     mi_Repo := repo |}
            end.
Proof.
  intros Hs. unfold resolve.
  destruct (selectPath_shape (Paths (conf s)) pkgName) as [E | (k & p & E)].
  - left. rewrite E. simpl. split; [done|].
    apply selectPath_None. by rewrite E.
  - right. rewrite E. simpl.
    pose proof E as (Hk & Hc & Hmax)%selectPath_last_longest.
    destruct (serving_inv _ _ Hs) as (_ & _ & Ht).
    destruct (Ht k p Hk) as (t & Hparse & Hlook).
    assert (Hin : p ∈ Paths (conf s))
      by (apply list_elem_of_lookup; by exists k).
    pose proof (serving_NbComponents _ _ _ Hs Hin) as Hpos.
    pose proof Hc as [Hle _]%candidate_spec.
    exists k, p, t. split; [by apply selectPath_last_longest|].
    split; [done|]. split; [lia|].
    unfold ExecuteTemplate. rewrite Hlook.
    destruct (Execute t _); [|done].
    rewrite slice_to_Some by lia. done.
Qed.

End EngineProperties.

Lemma Example_started : main Example.cfg = Serving Example.started.
Proof. vm_compute. reflexivity. Qed.

Lemma Example_serving : serving Example.cfg Example.started.
Proof. apply serving_start, Example_started. Qed.

(** ** The resolution and the response *)

(** C4. When a resolution succeeds, its import prefix is the first
    [NbComponents] components of the package path joined with ["/"], for
    the rule the loop selected ([NbComponents] being within the number of
    components), and its VCS is that rule's; the page that [handler] then
    answers is rendered from that [metaImport]. *)
Theorem import_prefix_is_first_components `{TemplateEngine}
    (s : server) (pkgName : string) (mi : metaImport) :
  resolve s pkgName = Resolved mi ->
  (exists k p,
      selectPath (Paths (conf s)) pkgName
      = Selection (Some p) k (Go.len (Prefix p))
      /\ (0 <= NbComponents p
          <= Z.of_nat (length (Go.Split pkgName slash)))%Z
      /\ mi_Prefix mi
         = Go.Join (take (Z.to_nat (NbComponents p))
                      (Go.Split pkgName slash)) "/"
      /\ mi_VCS mi = VCS p)
  /\ forall r, Go.Get (r_Query r) "go-get" = "1" ->
       r_Host r ++ r_Path r = pkgName ->
       (handler r s).1
       = match ExecuteTemplate (mainTemplate s) "main" (Meta mi) with
         | Some html =>
             Responded {| status := StatusOK;
                          header := [("Content-Type", "text/html")];
                          body := html |}
         | None => Responded (WriteHeader StatusInternalServerError)
         end.
Proof.
  intros Hres. split.
  - unfold resolve in Hres.
    destruct (selectPath_shape (Paths (conf s)) pkgName) as [E | (k & p & E)];
      rewrite E in Hres; simpl in Hres; [done|].
    destruct (ExecuteTemplate _ _ _) as [repo|]; [|done].
    destruct (Go.slice_to _ _) as [firsts|] eqn:Hslice; [|done].
    injection Hres as <-. simpl.
    unfold Go.slice_to in Hslice.
    destruct (Z.leb_spec 0 (NbComponents p)); [|done].
    destruct (Z.leb_spec (NbComponents p)
                (Z.of_nat (length (Go.Split pkgName slash)))); [|done].
    injection Hslice as <-. by exists k, p.
  - intros r Hq <-. rewrite (handler_go_get _ _ Hq), Hres. simpl.
    by destruct (ExecuteTemplate _ _ _).
Qed.

Lemma import_prefix_is_first_components_witness :
  resolve Example.started "example.com/pkg/sub"
  = Resolved (MetaImport "example.com/pkg" "hg" "https://hg.example.com/pkg")
  /\ exists k p,
       selectPath (Paths (conf Example.started)) "example.com/pkg/sub"
       = Selection (Some p) k (Go.len (Prefix p))
       /\ NbComponents p = 2%Z
       /\ mi_Prefix
            (MetaImport "example.com/pkg" "hg" "https://hg.example.com/pkg")
          = Go.Join (take 2 (Go.Split "example.com/pkg/sub" slash)) "/".
Proof.
  assert (E : resolve Example.started "example.com/pkg/sub"
              = Resolved (MetaImport "example.com/pkg" "hg"
                            "https://hg.example.com/pkg"))
    by (vm_compute; reflexivity).
  split; [exact E|].
  destruct (import_prefix_is_first_components _ _ _ E)
    as [(k & p & Hsel & _ & Hpre & _) _].
  exists k, p. split; [exact Hsel|].
  assert (Hp : sel_p (selectPath (Paths (conf Example.started))
                        "example.com/pkg/sub")
               = Some (ImportPath "example.com" 2 "hg"
                         "https://hg.example.com/{{index . 1}}"))
    by (vm_compute; reflexivity).
  rewrite Hsel in Hp. simpl in Hp. injection Hp as ->.
  split; reflexivity.
Defined.

(** ** The rule table that [main] builds *)

(** C5. [main] gives every rule whose [nb_components] is missing from the
    configuration, or is zero or negative, the number of slash-separated
    segments of the rule's prefix; a rule with a positive [nb_components]
    keeps it; no other field of a rule changes, and no rule is added or
    dropped. *)
Theorem main_sets_NbComponents `{TemplateEngine}
    (js : list jsonPath) (c : config) (s : server) :
  Paths c = decodePath <$> js ->
  main c = Serving s ->
  length (Paths (conf s)) = length js
  /\ forall i j, js !! i = Some j ->
       exists p,
         Paths (conf s) !! i = Some p
         /\ Prefix p = default EmptyString (j_prefix j)
         /\ VCS p = default EmptyString (j_vcs j)
         /\ RepoTemplate p = default EmptyString (j_repo_template j)
         /\ NbComponents p
            = match j_nb_components j with
              | None => Z.of_nat (length (Go.Split (Prefix p) slash))
              | Some n =>
                  if (n <=? 0)%Z
                  then Z.of_nat (length (Go.Split (Prefix p) slash))
                  else n
              end.
Proof.
  intros Hjs (Hp & _)%main_Serving. rewrite Hp, Hjs.
  split; [by rewrite !length_fmap|].
  intros i j Hj. exists (setNbComponents (decodePath j)).
  rewrite !list_lookup_fmap, Hj. split; [done|].
  destruct (setNbComponents_fields (decodePath j)) as (-> & -> & ->).
  do 3 (split; [done|]).
  unfold setNbComponents, decodePath. simpl.
  destruct (j_nb_components j) as [n|]; simpl; [|done].
  by destruct (n <=? 0)%Z.
Qed.

Lemma main_sets_NbComponents_witness :
  Paths (conf Example.started)
  = [ ImportPath "example.com/foo" 2 "git"
        "https://github.com/org/{{index . 2}}";
      ImportPath "example.com" 2 "hg"
        "https://hg.example.com/{{index . 1}}" ]
  /\ length (Paths (conf Example.started)) = length Example.rules.
Proof.
  split; [vm_compute; reflexivity|].
  apply (main_sets_NbComponents Example.rules Example.cfg Example.started).
  - reflexivity.
  - exact Example_started.
Defined.

(** ** The answers of [handler] *)

(** C6. A request whose query has no [go-get] parameter, or one that is
    not ["1"], is answered with status 400, no header and no body, whatever
    its host and path and whatever the server holds; the only trace is the
    log line of the refusal (no rule is looked up). *)
Theorem not_go_get_is_bad_request `{TemplateEngine}
    (r : request) (s : server) :
  r_Query r !! "go-get" = None \/ Go.Get (r_Query r) "go-get" <> "1" ->
  handler r s
  = (Responded {| status := 400; header := []; body := EmptyString |},
     {| conf := conf s; mainTemplate := mainTemplate s;
        logged := logged s ++ [LogNotGoGet r] |}).
Proof.
  intros Hq. apply handler_not_go_get.
  destruct Hq as [Hq|Hq]; [|done].
  unfold Go.Get. by rewrite Hq.
Qed.

Lemma not_go_get_is_bad_request_witness :
  (handler (Example.plain "example.com" "/foo/bar") Example.started).1
  = Responded {| status := 400; header := []; body := EmptyString |}.
Proof.
  rewrite (not_go_get_is_bad_request
             (Example.plain "example.com" "/foo/bar") Example.started).
  - reflexivity.
  - left. reflexivity.
Defined.

(** C7. On a running server, a go-get request is answered "not found" in
    exactly two cases: no rule is a candidate for the package path, or the
    rule selected has a template whose execution on the components of the
    path fails. The answer is then the 404 of [http.NotFound] and nothing
    else, the package path is logged, and the server goes on with the same
    configuration and templates; in every other case the status is 200 or
    500. *)
Theorem not_found_exactly_two_cases `{TemplateEngine}
    (c : config) (s : server) (r : request) :
  serving c s ->
  Go.Get (r_Query r) "go-get" = "1" ->
  let pkgName := r_Host r ++ r_Path r in
  let components := Go.Split pkgName slash in
  let no_candidate :=
    forall p, p ∈ Paths (conf s) -> candidate pkgName components p = false in
  let exec_failed :=
    exists k p t,
      last_longest pkgName (Paths (conf s)) k p
      /\ Parse (RepoTemplate p) = Some t
      /\ Execute t (Components components) = None in
  (exists resp,
      (handler r s).1 = Responded resp
      /\ (status resp = StatusNotFound <-> no_candidate \/ exec_failed)
      /\ (status resp = StatusNotFound -> resp = NotFound)
      /\ (status resp = StatusNotFound \/ status resp = StatusOK
          \/ status resp = StatusInternalServerError))
  /\ serving c (handler r s).2
  /\ conf (handler r s).2 = conf s
  /\ mainTemplate (handler r s).2 = mainTemplate s
  /\ (no_candidate ->
      logged (handler r s).2
      = (logged s ++ [LogRequest pkgName; LogNoMatch pkgName])%list)
  /\ (exec_failed ->
      logged (handler r s).2
      = (logged s ++ [LogRequest pkgName; LogExecFailed pkgName])%list).
Proof.
  intros Hs Hq pkgName components no_candidate exec_failed.
  destruct (handler_frame r s) as (Hconf & Htmpl & _).
  pose proof (serving_handled c s r Hs) as Hnext.
  split; [|do 3 (split; [done|])]; clear Hconf Htmpl Hnext;
    rewrite (handler_go_get _ _ Hq); fold pkgName;
    destruct (resolve_serving c s pkgName Hs)
      as [[-> Hnone] | (k & p & t & Hsel & Hparse & Hnb & ->)].
  - (* no candidate *)
    exists NotFound. simpl. split; [done|]. split; [|by auto].
    split; [by left|done].
  - destruct (Execute t (Components (Go.Split pkgName slash)))
      as [repo|] eqn:Hexec; simpl.
    + (* resolved: 200 or 500 *)
      assert (Hnot : ~ (no_candidate \/ exec_failed)).
      { intros [Hno | (k' & p' & t' & Hsel' & Hparse' & Hexec')].
        - destruct Hsel as (Hk & Hc & _). rewrite Hno in Hc; [done|].
          apply list_elem_of_lookup. by exists k.
        - destruct (last_longest_unique _ _ _ _ _ _ Hsel Hsel') as [<- <-].
          rewrite Hparse in Hparse'. injection Hparse' as <-.
          fold components in Hexec. congruence. }
      destruct (ExecuteTemplate _ "main" _) as [html|]; simpl;
        eexists; (split; [reflexivity|]); simpl;
        (split; [split; [done|by intros ?]|]); split; auto; done.
    + (* the template failed *)
      exists NotFound. split; [done|]. split; [|by auto].
      split; [|done]. intros _. right. by exists k, p, t.
  - simpl. split; [intros _; by rewrite <- app_assoc|].
    intros (k & p & t & (Hk & Hc & _) & _).
    rewrite Hnone in Hc; [done|]. apply list_elem_of_lookup. by exists k.
  - split.
    + intros Hno. destruct Hsel as (Hk & Hc & _). rewrite Hno in Hc; [done|].
      apply list_elem_of_lookup. by exists k.
    + intros (k' & p' & t' & Hsel' & Hparse' & Hexec').
      destruct (last_longest_unique _ _ _ _ _ _ Hsel Hsel') as [<- <-].
      rewrite Hparse in Hparse'. injection Hparse' as <-.
      fold components. rewrite Hexec'. simpl. by rewrite <- app_assoc.
Qed.

Lemma not_found_exactly_two_cases_witness :
  (handler (Example.goGet "other.org" "/x") Example.started).1
  = Responded NotFound
  /\ (handler (Example.goGet "example.com" "/foo") Example.started).1
     = Responded NotFound
  /\ serving Example.cfg
       (handler (Example.goGet "example.com" "/foo") Example.started).2.
Proof.
  split; [vm_compute; reflexivity|]. split; [vm_compute; reflexivity|].
  apply (not_found_exactly_two_cases Example.cfg Example.started
           (Example.goGet "example.com" "/foo")).
  - exact Example_serving.
  - reflexivity.
Defined.

(** C10. On a running server the slice of the first [NbComponents]
    components is always in range: the rule selected has
    [0 <= NbComponents <= len(components)] (the upper bound from the test
    of the loop, the lower one from [main]), so the slice expression yields
    those components, the resolution never ends in a panic, and no request
    makes [handler] panic. *)
Theorem slice_always_in_range `{TemplateEngine}
    (c : config) (s : server) (pkgName : string) :
  serving c s ->
  (forall k p pl,
      selectPath (Paths (conf s)) pkgName = Selection (Some p) k pl ->
      (0 <= NbComponents p
       <= Z.of_nat (length (Go.Split pkgName slash)))%Z
      /\ Go.slice_to (Go.Split pkgName slash) (NbComponents p)
         = Some (take (Z.to_nat (NbComponents p))
                   (Go.Split pkgName slash)))
  /\ resolve s pkgName <> SliceOutOfRange
  /\ forall r, (handler r s).1 <> Panicked.
Proof.
  intros Hs.
  assert (Hres : forall pkg, resolve s pkg <> SliceOutOfRange).
  { intros pkg.
    destruct (resolve_serving c s pkg Hs)
      as [[-> _] | (k & p & t & _ & _ & _ & ->)]; [done|].
    by destruct (Execute t _). }
  split; [|split; [done|]].
  - intros k p pl Hsel.
    destruct (selectPath_shape (Paths (conf s)) pkgName)
      as [E | (k' & p' & E)]; rewrite E in Hsel; [done|].
    injection Hsel as <- <- <-.
    apply selectPath_last_longest in E as (Hk & [Hle _]%candidate_spec & _).
    assert (Hin : p' ∈ Paths (conf s))
      by (apply list_elem_of_lookup; by exists k').
    pose proof (serving_NbComponents _ _ _ Hs Hin).
    split; [lia|]. apply slice_to_Some. lia.
  - intros r.
    destruct (String.eqb_spec (Go.Get (r_Query r) "go-get") "1") as [Hq|Hq].
    + rewrite (handler_go_get _ _ Hq).
      specialize (Hres (r_Host r ++ r_Path r)).
      destruct (resolve s _) as [| | |mi]; simpl; try done.
      by destruct (ExecuteTemplate _ _ _).
    + by rewrite (handler_not_go_get _ _ Hq).
Qed.

Lemma slice_always_in_range_witness :
  resolve Example.started "example.com/foo/bar/baz" <> SliceOutOfRange
  /\ forall r, (handler r Example.started).1 <> Panicked.
Proof.
  apply (slice_always_in_range Example.cfg Example.started
           "example.com/foo/bar/baz").
  exact Example_serving.
Defined.

(** Without [main], a rule whose [NbComponents] is negative makes the
    slice expression panic. *)
Example handler_panics_on_negative_NbComponents :
  let s := {| conf := Config "" 80 None [ImportPath "a" (-1) "git" "x"];
              mainTemplate := mainTemplate Example.started;
              logged := [] |} in
  (handler (Example.goGet "a" "/b/c") s).1 = Panicked.
Proof. vm_compute. reflexivity. Qed.

(** ** Empty prefixes and templates *)

(** C8, on the code: the start-up code of the variant with [NbComponents]
    does not refuse a rule whose prefix and template are empty. It gives
    the rule one component, stores it, and serves it: every go-get request
    of at least one component is then answered with status 200. The
    validated variant refuses the same rule. *)
Theorem empty_rule_is_stored_and_served :
  (exists s : @server Mini.engine,
      main Example.emptyCfg = Serving s
      /\ Paths (conf s) = [ImportPath EmptyString 1 EmptyString EmptyString]
      /\ exists html,
           (handler (Example.goGet "any.host" "/some/path") s).1
           = Responded {| status := StatusOK;
                          header := [("Content-Type", "text/html")];
                          body := html |})
  /\ forall hostname_port min_1s file addr timeout tls,
       MainGo.main hostname_port min_1s file
         (MainGo.Config addr timeout tls
            [MainGo.ImportPath EmptyString EmptyString EmptyString])
       = MainGo.Fatal.
Proof.
  split.
  - destruct (main Example.emptyCfg) as [s|] eqn:E; [|by vm_compute in E].
    exists s. split; [done|].
    assert (Some s = match main Example.emptyCfg with
                     | Serving s' => Some s' | Fatal => None end)
      as Hs by by rewrite E.
    vm_compute in Hs. injection Hs as ->.
    split; [reflexivity|]. eexists. vm_compute. reflexivity.
  - intros hostname_port min_1s file addr timeout tls.
    unfold MainGo.main, MainGo.Struct. simpl.
    by rewrite !andb_false_r.
Qed.


(** * Further properties of the code *)

(** ** Splitting and joining *)

Lemma string_app_assoc (a b c : string) : (a ++ b) ++ c = a ++ (b ++ c).
Proof.
  induction a as [|x a IH]; [done|]. by rewrite !app_String, IH.
Qed.

Lemma string_app_nil_r (a : string) : a ++ EmptyString = a.
Proof. induction a as [|x a IH]; [done|]. by rewrite app_String, IH. Qed.

Lemma Split_cons_length (c : ascii) (s : string) (sep : ascii) :
  length (Go.Split (String c s) sep)
  = if Ascii.eqb c sep then S (length (Go.Split s sep))
    else length (Go.Split s sep).
Proof.
  pose proof (Split_length s sep) as Hlen. simpl.
  destruct (Ascii.eqb c sep); [done|].
  destruct (Go.Split s sep); simpl in *; [lia|done].
Qed.

(** A string has at least as many segments as each of its prefixes. *)
Lemma Split_app_length (p t : string) (sep : ascii) :
  length (Go.Split p sep) <= length (Go.Split (p ++ t) sep).
Proof.
  induction p as [|c p IH].
  - apply Split_length.
  - rewrite app_String, !Split_cons_length. destruct (Ascii.eqb c sep); lia.
Qed.

(** [strings.Join(strings.Split(s, "/"), "/")] is [s]. *)
Lemma Join_Split (s : string) : Go.Join (Go.Split s slash) "/" = s.
Proof.
  induction s as [|c s IH]; [done|]. simpl.
  pose proof (Split_length s slash) as Hlen.
  destruct (Ascii.eqb_spec c slash) as [->|Hne].
  - destruct (Go.Split s slash) as [|x xs] eqn:E; simpl in *; [lia|].
    by rewrite <- IH.
  - destruct (Go.Split s slash) as [|x xs] eqn:E; simpl in *; [lia|].
    destruct xs as [|y ys]; [by rewrite <- IH|].
    by rewrite <- IH, app_String.
Qed.

(** The join of the first [n] elements starts the join of all of them,
    and what follows is empty or begins with the separator. *)
Lemma Join_take (l : list string) :
  forall n, exists t,
    Go.Join l "/" = Go.Join (take n l) "/" ++ t
    /\ (0 < n -> t = EmptyString \/ exists t', t = "/" ++ t').
Proof.
  induction l as [|x xs IH]; intros n.
  - exists EmptyString. rewrite take_nil. split; [done|by left].
  - destruct n as [|m].
    + exists (Go.Join (x :: xs) "/"). split; [done|lia].
    + destruct xs as [|y ys].
      * exists EmptyString. rewrite firstn_cons, take_nil. simpl.
        split; [by rewrite string_app_nil_r|by left].
      * destruct m as [|m'].
        -- exists ("/" ++ Go.Join (y :: ys) "/"). simpl take.
           split; [done|]. intros _. right. by eexists.
        -- destruct (IH (S m')) as (t & E & Ht).
           exists t. split; [|intros _; apply Ht; lia].
           change (take (S (S m')) (x :: y :: ys))
             with (x :: take (S m') (y :: ys)).
           change (Go.Join (x :: y :: ys) "/")
             with (x ++ "/" ++ Go.Join (y :: ys) "/").
           rewrite E. simpl take.
           change (Go.Join (x :: y :: take m' ys) "/")
             with (x ++ "/" ++ Go.Join (y :: take m' ys) "/").
           by rewrite !string_app_assoc.
Qed.

(** ** Rules whose component count is the default *)

Lemma candidate_setNbComponents (p : importPath) (pkgName : string) :
  (NbComponents p <= 0)%Z ->
  candidate pkgName (Go.Split pkgName slash) (setNbComponents p)
  = Go.HasPrefix pkgName (Prefix p).
Proof.
  intros Hle. unfold candidate, setNbComponents.
  destruct (Z.leb_spec (NbComponents p) 0); [|lia]. simpl.
  destruct (Go.HasPrefix pkgName (Prefix p)) eqn:Hpre;
    [|by rewrite andb_false_r].
  rewrite andb_true_r. apply HasPrefix_spec in Hpre as [t ->].
  apply Z.leb_le, inj_le, Split_app_length.
Qed.

(** X1. The component test never excludes a rule whose [NbComponents] was
    set by [main]: such a rule is a candidate for exactly the package paths
    that start with its prefix. *)
Theorem default_NbComponents_gate (p : importPath) (pkgName : string) :
  (NbComponents p <= 0)%Z ->
  candidate pkgName (Go.Split pkgName slash) (setNbComponents p)
  = Go.HasPrefix pkgName (Prefix p).
Proof. apply candidate_setNbComponents. Qed.

Lemma default_NbComponents_gate_witness :
  candidate "example.com/foo" (Go.Split "example.com/foo" slash)
    (setNbComponents (ImportPath "example.com/foo" 0 "git" "t"))
  = Go.HasPrefix "example.com/foo" "example.com/foo".
Proof.
  apply (default_NbComponents_gate
           (ImportPath "example.com/foo" 0 "git" "t") "example.com/foo").
  simpl. lia.
Defined.

(** ** The import prefix *)

(** X2. The import prefix of a resolution is a prefix of the package
    path; on a running server what follows it in the path is empty or
    begins with a slash, so the prefix ends where a component ends; and
    when the rule asks for as many components as the path has, the import
    prefix is the package path. *)
Theorem import_prefix_starts_path `{TemplateEngine}
    (c : config) (s : server) (pkgName : string) (mi : metaImport) :
  resolve s pkgName = Resolved mi ->
  exists t,
    pkgName = mi_Prefix mi ++ t
    /\ (serving c s -> t = EmptyString \/ exists t', t = "/" ++ t')
    /\ (forall p, sel_p (selectPath (Paths (conf s)) pkgName) = Some p ->
          NbComponents p = Z.of_nat (length (Go.Split pkgName slash)) ->
          t = EmptyString).
Proof.
  intros Hres. unfold resolve in Hres.
  destruct (sel_p (selectPath (Paths (conf s)) pkgName)) as [p|] eqn:Hp;
    [|done].
  destruct (ExecuteTemplate _ _ _) as [repo|]; [|done].
  destruct (Go.slice_to _ _) as [firsts|] eqn:Hslice; [|done].
  injection Hres as <-. simpl.
  unfold Go.slice_to in Hslice.
  destruct (Z.leb_spec 0 (NbComponents p)) as [H0|]; [|done].
  destruct (Z.leb_spec (NbComponents p)
              (Z.of_nat (length (Go.Split pkgName slash)))) as [H1|]; [|done].
  injection Hslice as <-.
  destruct (Join_take (Go.Split pkgName slash) (Z.to_nat (NbComponents p)))
    as (t & E & Ht).
  rewrite Join_Split in E. exists t. split; [done|]. split.
  - intros Hs. apply Ht.
    assert (Hin : p ∈ Paths (conf s)).
    { destruct (selectPath_shape (Paths (conf s)) pkgName)
        as [E' | (k & p' & E')]; rewrite E' in Hp; [done|].
      injection Hp as ->.
      apply selectPath_last_longest in E' as (Hk & _).
      apply list_elem_of_lookup. by exists k. }
    pose proof (serving_NbComponents _ _ _ Hs Hin). lia.
  - intros p' [= <-] Hn. rewrite Hn, Nat2Z.id, firstn_all, Join_Split in E.
    rewrite <- (string_app_nil_r pkgName) in E at 1.
    by apply string_app_inv_head in E.
Qed.

Lemma import_prefix_starts_path_witness :
  exists t, "example.com/pkg/sub" = "example.com/pkg" ++ t.
Proof.
  destruct (import_prefix_starts_path Example.cfg Example.started
              "example.com/pkg/sub"
              (MetaImport "example.com/pkg" "hg" "https://hg.example.com/pkg"))
    as (t & E & _).
  - vm_compute. reflexivity.
  - exists t. exact E.
Defined.

(** ** Start-up *)

(** The loop of [main] on the rules it has rewritten does what it did. *)
Lemma mainLoop_again `{TemplateEngine} (paths : list importPath) :
  forall (i : nat) (set : gmap string template) paths' set',
    mainLoop i paths set = Some (paths', set') ->
    mainLoop i paths' set = Some (paths', set').
Proof.
  induction paths as [|p rest IH]; intros i set paths' set'; simpl.
  - by intros [= <- <-].
  - destruct (setNbComponents_fields p) as (_ & _ & Ht).
    destruct (Parse (RepoTemplate (setNbComponents p))) as [t|] eqn:Hp;
      [|done].
    destruct (mainLoop (S i) rest _) as [[rest' set'']|] eqn:E; [|done].
    intros [= <- <-]. simpl.
    assert (Hidem : setNbComponents (setNbComponents p) = setNbComponents p).
    { pose proof (setNbComponents_pos p) as Hpos.
      unfold setNbComponents at 1.
      destruct (Z.leb_spec (NbComponents (setNbComponents p)) 0); [lia|done]. }
    by rewrite Hidem, Hp, (IH _ _ _ _ E).
Qed.


(** X5. Rules of different indices have templates of different names, and
    none of them is named as the page is. *)
Theorem template_names_are_distinct (i j : nat) :
  (templateNameForImportPath i = templateNameForImportPath j <-> i = j)
  /\ templateNameForImportPath i <> "main".
Proof.
  split; [split|].
  - apply templateNameForImportPath_inj.
  - by intros ->.
  - apply templateNameForImportPath_main.
Qed.

(** X6. Starting again on the configuration that [main] left gives the
    same server: the rewriting of the component counts is done once and
    for all. *)
Theorem main_again `{TemplateEngine} (c : config) (s : server) :
  main c = Serving s -> main (conf s) = Serving s.
Proof.
  unfold main. destruct initMainTemplate as [set0|]; [|done].
  destruct (mainLoop 0 (Paths c) set0) as [[paths set]|] eqn:E; [|done].
  intros [= <-]. simpl. by rewrite (mainLoop_again _ _ _ _ _ E).
Qed.

Lemma main_again_witness : main (conf Example.started) = Serving Example.started.
Proof. apply (main_again Example.cfg). exact Example_started. Defined.

(** ** More on the selection and on what [handler] runs *)

(** X7. A rule with an empty prefix and at most one component is a
    candidate for every package path, so with it in the table some rule is
    always selected; and it has the lowest precedence: an empty prefix is
    selected only when every candidate has an empty prefix. *)
Theorem empty_prefix_is_catch_all (paths : list importPath) (r : importPath)
    (pkgName : string) :
  r ∈ paths -> Prefix r = EmptyString -> (NbComponents r <= 1)%Z ->
  (exists k p,
      selectPath paths pkgName = Selection (Some p) k (Go.len (Prefix p)))
  /\ forall k p,
       selectPath paths pkgName = Selection (Some p) k (Go.len (Prefix p)) ->
       Prefix p = EmptyString ->
       forall q, q ∈ paths ->
         candidate pkgName (Go.Split pkgName slash) q = true ->
         Prefix q = EmptyString.
Proof.
  intros Hin Hpre Hnb.
  assert (Hc : candidate pkgName (Go.Split pkgName slash) r = true).
  { apply candidate_spec. rewrite Hpre.
    pose proof (Split_length pkgName slash). split; [lia|by exists pkgName]. }
  split.
  - destruct (selectPath_shape paths pkgName) as [E|E]; [|done].
    assert (Hn : sel_p (selectPath paths pkgName) = None) by by rewrite E.
    rewrite selectPath_None in Hn. by rewrite (Hn r Hin) in Hc.
  - intros k p (_ & _ & Hmax)%selectPath_last_longest Hp q
      [j Hj]%list_elem_of_lookup Hq.
    destruct (Hmax j q Hj Hq) as [Hle _]. rewrite Hp in Hle.
    destruct (Prefix q); [done|]. simpl in Hle. lia.
Qed.

Lemma empty_prefix_is_catch_all_witness :
  exists k p,
    selectPath [ImportPath "a" 1 "git" "x"; ImportPath "" 1 "hg" "y"] "b/c"
    = Selection (Some p) k (Go.len (Prefix p)).
Proof.
  apply (empty_prefix_is_catch_all
           [ImportPath "a" 1 "git" "x"; ImportPath "" 1 "hg" "y"]
           (ImportPath "" 1 "hg" "y") "b/c").
  - apply list_elem_of_In. simpl. right. left. reflexivity.
  - reflexivity.
  - simpl. lia.
Defined.

(** X9. In any state, started by [main] or not, [handler] panics exactly
    on a go-get request whose selected rule has a negative [NbComponents]
    and a template that executes: the slice expression is the only
    panic, and the test of the loop rules out the upper bound. *)
Theorem handler_panics_iff `{TemplateEngine} (r : request) (s : server) :
  let pkgName := r_Host r ++ r_Path r in
  let st := selectPath (Paths (conf s)) pkgName in
  (handler r s).1 = Panicked
  <-> Go.Get (r_Query r) "go-get" = "1"
      /\ exists p,
           sel_p st = Some p
           /\ (NbComponents p < 0)%Z
           /\ is_Some (ExecuteTemplate (mainTemplate s)
                         (templateNameForImportPath (sel_pi st))
                         (Components (Go.Split pkgName slash))).
Proof.
  intros pkgName st.
  destruct (String.eqb_spec (Go.Get (r_Query r) "go-get") "1") as [Hq|Hq].
  - rewrite (handler_go_get _ _ Hq). fold pkgName. unfold resolve. fold st.
    destruct (selectPath_shape (Paths (conf s)) pkgName)
      as [E | (k & p & E)]; fold st in E; rewrite E; simpl.
    + split; [done|]. by intros (_ & p & ? & _).
    + apply selectPath_last_longest in E
        as (_ & [Hle _]%candidate_spec & _).
      destruct (ExecuteTemplate _ _ _) as [repo|]; simpl.
      * unfold Go.slice_to.
        destruct (Z.leb_spec 0 (NbComponents p)); simpl.
        -- destruct (Z.leb_spec (NbComponents p)
                       (Z.of_nat (length (Go.Split pkgName slash)))); [|lia].
           simpl. destruct (ExecuteTemplate _ _ _); simpl;
             (split; [done|]); intros (_ & p' & [= <-] & ? & _); lia.
        -- split; [|done]. intros _. split; [done|]. exists p. eauto.
      * split; [done|]. by intros (_ & p' & _ & _ & [? ?]).
  - rewrite (handler_not_go_get _ _ Hq). simpl. split; [done|]. by intros [? _].
Qed.

(** ** The variant with the longest prefix and no component count *)

(** The loop without the component test does what the loop with it does
    on rules whose component count never excludes a matching prefix. *)
Lemma loop_simulation (pkgName : string) (components : list string)
    (paths : list importPath) :
  forall (i : nat) (st : selection),
    (forall p, p ∈ paths -> Go.HasPrefix pkgName (Prefix p) = true ->
       (NbComponents p <= Z.of_nat (length components))%Z) ->
    LongestPrefix.loop pkgName (withoutNbComponents <$> paths)
      (withoutNbComponents <$> sel_p st, sel_pl st)
    = (withoutNbComponents
         <$> sel_p (loopFrom pkgName components i paths st),
       sel_pl (loopFrom pkgName components i paths st)).
Proof.
  induction paths as [|p rest IH]; intros i st Hgate; [done|]. simpl.
  rewrite <- (IH (S i)) by (intros q Hq; apply Hgate; by right).
  f_equal. unfold LongestPrefix.loopBody, loopBody, candidate. simpl.
  destruct (Go.HasPrefix pkgName (Prefix p)) eqn:Hpre; simpl.
  - destruct (Z.leb_spec (NbComponents p) (Z.of_nat (length components)))
      as [|Hlt]; simpl.
    + by destruct (sel_pl st <=? Go.len (Prefix p))%nat.
    + specialize (Hgate p (list_elem_of_here _ _) Hpre). lia.
  - by rewrite andb_false_r.
Qed.

Lemma withoutNbComponents_withNbComponents (n : Z)
    (l : list LongestPrefix.importPath) :
  withoutNbComponents <$> (withNbComponents n <$> l) = l.
Proof.
  rewrite <- list_fmap_compose. rewrite <- (list_fmap_id l) at 2.
  apply list_fmap_ext. intros _ [] _. reflexivity.
Qed.

(** X10. The variant without component counts selects the last of the
    rules with the longest prefix that the package path starts with, and
    none when no prefix matches. *)
Theorem LongestPrefix_selects_last_longest
    (l : list LongestPrefix.importPath) (pkgName : string) :
  match (LongestPrefix.loop pkgName l (None, 0)).1 with
  | None =>
      forall q, q ∈ l ->
        Go.HasPrefix pkgName (LongestPrefix.Prefix q) = false
  | Some p =>
      exists k,
        l !! k = Some p
        /\ Go.HasPrefix pkgName (LongestPrefix.Prefix p) = true
        /\ forall j q, l !! j = Some q ->
             Go.HasPrefix pkgName (LongestPrefix.Prefix q) = true ->
             Go.len (LongestPrefix.Prefix q) <= Go.len (LongestPrefix.Prefix p)
             /\ (k < j -> Go.len (LongestPrefix.Prefix q)
                          < Go.len (LongestPrefix.Prefix p))
  end.
Proof.
  pose proof (loop_simulation pkgName (Go.Split pkgName slash)
                (withNbComponents 0 <$> l) 0 sel0) as Hsim.
  rewrite withoutNbComponents_withNbComponents in Hsim.
  simpl in Hsim. rewrite Hsim; clear Hsim.
  2:{ intros p (q & -> & _)%list_elem_of_fmap _. simpl. lia. }
  assert (Hcand : forall q,
             candidate pkgName (Go.Split pkgName slash) (withNbComponents 0 q)
             = Go.HasPrefix pkgName (LongestPrefix.Prefix q)).
  { intros q. unfold candidate. simpl.
    destruct (Z.leb_spec 0 (Z.of_nat (length (Go.Split pkgName slash))));
      [done|lia]. }
  fold (selectPath (withNbComponents 0 <$> l) pkgName). simpl.
  destruct (selectPath_shape (withNbComponents 0 <$> l) pkgName)
    as [E | (k & r & E)].
  - assert (Hn : sel_p (selectPath (withNbComponents 0 <$> l) pkgName) = None)
      by by rewrite E.
    rewrite E. simpl. rewrite selectPath_None in Hn.
    intros q Hq. rewrite <- Hcand. apply Hn. by apply list_elem_of_fmap_2.
  - rewrite E. simpl.
    apply selectPath_last_longest in E as (Hk & Hr & Hmax).
    rewrite list_lookup_fmap in Hk.
    destruct (l !! k) as [q|] eqn:Hq; [|done]. injection Hk as <-.
    exists k. split; [by destruct q|]. rewrite Hcand in Hr.
    split; [by destruct q|]. intros j q' Hj Hq'.
    apply (Hmax j (withNbComponents 0 q')).
    + by rewrite list_lookup_fmap, Hj.
    + by rewrite Hcand.
Qed.

(** X11. On a table whose rules all leave [nb_components] out, the
    variant with component counts, once [main] has set them, selects the
    rule that the variant without them selects. *)
Theorem default_NbComponents_selects_as_before
    (raw : list importPath) (pkgName : string) :
  Forall (fun p => (NbComponents p <= 0)%Z) raw ->
  let st := selectPath (setNbComponents <$> raw) pkgName in
  LongestPrefix.loop pkgName (withoutNbComponents <$> raw) (None, 0)
  = (withoutNbComponents <$> sel_p st, sel_pl st).
Proof.
  intros Hraw st.
  pose proof (loop_simulation pkgName (Go.Split pkgName slash)
                (setNbComponents <$> raw) 0 sel0) as Hsim.
  rewrite <- list_fmap_compose in Hsim.
  assert (Hf : withoutNbComponents ∘ setNbComponents <$> raw
               = withoutNbComponents <$> raw).
  { apply list_fmap_ext. intros _ p _. unfold withoutNbComponents. simpl.
    by destruct (setNbComponents_fields p) as (-> & -> & ->). }
  rewrite Hf in Hsim.
  apply Hsim. intros p (q & -> & Hq)%list_elem_of_fmap Hpre.
  rewrite Forall_forall in Hraw. specialize (Hraw q Hq).
  destruct (setNbComponents_fields q) as (Hp & _). rewrite Hp in Hpre.
  rewrite <- (candidate_setNbComponents q pkgName Hraw) in Hpre.
  by apply candidate_spec in Hpre as [? _].
Qed.

Lemma default_NbComponents_selects_as_before_witness :
  LongestPrefix.loop "a/b/c"
    [LongestPrefix.ImportPath "a" "git" "x";
     LongestPrefix.ImportPath "a/b" "hg" "y"] (None, 0)
  = (Some (LongestPrefix.ImportPath "a/b" "hg" "y"), 3).
Proof.
  apply (default_NbComponents_selects_as_before
           [ImportPath "a" 0 "git" "x"; ImportPath "a/b" (-1) "hg" "y"]
           "a/b/c").
  repeat constructor; simpl; lia.
Defined.

(** ** The variants that take the first match *)

Lemma MainGo_firstMatch_spec (pkgName : string)
    (paths : list MainGo.importPath) :
  match MainGo.firstMatch pkgName paths with
  | None =>
      forall q, q ∈ paths -> Go.HasPrefix pkgName (MainGo.Prefix q) = false
  | Some p =>
      exists k,
        paths !! k = Some p
        /\ Go.HasPrefix pkgName (MainGo.Prefix p) = true
        /\ forall j q, j < k -> paths !! j = Some q ->
             Go.HasPrefix pkgName (MainGo.Prefix q) = false
  end.
Proof.
  induction paths as [|path rest IH]; simpl.
  - intros q Hq. by apply elem_of_nil in Hq.
  - destruct (Go.HasPrefix pkgName (MainGo.Prefix path)) eqn:Hpre.
    + exists 0. do 2 (split; [done|]). intros j q Hj. lia.
    + destruct (MainGo.firstMatch pkgName rest) as [p|].
      * destruct IH as (k & Hk & Hp & Hfirst). exists (S k).
        do 2 (split; [done|]). intros [|j] q Hj Hq; simpl in Hq.
        -- by injection Hq as <-.
        -- apply (Hfirst j q); [lia|done].
      * intros q [->|Hq]%elem_of_cons; [done|by apply IH].
Qed.

(** X12. In [main.go] the rule is the first declared whose prefix the
    package path starts with: no rule before it matches, and none is
    found exactly when no prefix matches. The order of declaration
    decides between two matching rules, whatever the length of their
    prefixes. *)
Theorem MainGo_first_declared_wins (pkgName : string) :
  (forall paths : list MainGo.importPath,
      match MainGo.firstMatch pkgName paths with
      | None =>
          forall q, q ∈ paths ->
            Go.HasPrefix pkgName (MainGo.Prefix q) = false
      | Some p =>
          exists k,
            paths !! k = Some p
            /\ Go.HasPrefix pkgName (MainGo.Prefix p) = true
            /\ forall j q, j < k -> paths !! j = Some q ->
                 Go.HasPrefix pkgName (MainGo.Prefix q) = false
      end)
  /\ forall r1 r2 : MainGo.importPath,
       Go.HasPrefix pkgName (MainGo.Prefix r1) = true ->
       Go.HasPrefix pkgName (MainGo.Prefix r2) = true ->
       MainGo.firstMatch pkgName [r1; r2] = Some r1
       /\ MainGo.firstMatch pkgName [r2; r1] = Some r2.
Proof.
  split; [apply MainGo_firstMatch_spec|].
  intros r1 r2 H1 H2. simpl. by rewrite H1, H2.
Qed.

(** X14. In [main.go] a go-get request makes [handler] panic exactly when
    the template of the first matching rule does not parse (the
    validation of the configuration does not look at it), and it is
    answered "not found" exactly when no prefix matches or the parsed
    template fails on the components of the path. *)
Theorem MainGo_handler_outcomes `{TemplateEngine}
    (htmlTemplate : MainGo.pkgInfo -> option string)
    (conf : MainGo.config) (r : request) (log : list log_entry) :
  Go.Get (r_Query r) "go-get" = "1" ->
  let pkgName := r_Host r ++ r_Path r in
  let first := MainGo.firstMatch pkgName (MainGo.Paths conf) in
  ((MainGo.handler htmlTemplate conf r log).1 = Panicked
   <-> exists p, first = Some p /\ Parse (MainGo.RepoTemplate p) = None)
  /\ ((MainGo.handler htmlTemplate conf r log).1 = Responded NotFound
      <-> first = None
          \/ exists p t,
               first = Some p
               /\ Parse (MainGo.RepoTemplate p) = Some t
               /\ Execute t (Components (Go.Split pkgName slash)) = None).
Proof.
  intros Hq pkgName first. unfold MainGo.handler. rewrite Hq. simpl.
  fold pkgName. fold first.
  destruct first as [p|]; simpl.
  - destruct (Parse (MainGo.RepoTemplate p)) as [t|] eqn:Hp; simpl.
    + destruct (Execute t _) as [repo|] eqn:He; simpl.
      * destruct (htmlTemplate _); simpl; split; split; try done;
          try (by intros (? & [= <-] & ?); congruence);
          intros [?|(? & ? & [= <-] & ? & ?)]; congruence.
      * split; split; try done.
        -- intros (? & [= <-] & ?); congruence.
        -- intros _. right. by exists p, t.
    + split; split; try done.
      * intros _. by exists p.
      * intros [?|(? & ? & [= <-] & ? & ?)]; congruence.
  - split; split; try done.
    + by intros (? & ? & _).
    + intros _. by left.
Qed.

Lemma MainGo_handler_outcomes_witness :
  (@MainGo.handler Mini.engine (fun _ => Some "page")
     (MainGo.Config "localhost:80" 1000000000 None
        [MainGo.ImportPath "a" "git" "{{broken"])
     (Example.goGet "a" "/b") []).1 = Panicked.
Proof.
  apply (MainGo_handler_outcomes (H:=Mini.engine) (fun _ => Some "page")
           (MainGo.Config "localhost:80" 1000000000 None
              [MainGo.ImportPath "a" "git" "{{broken"])
           (Example.goGet "a" "/b") []).
  - reflexivity.
  - eexists. split; reflexivity.
Defined.

Lemma FirstMatch_loop_spec (pkgName : string)
    (paths : list FirstMatch.importPath) :
  (FirstMatch.loop pkgName paths = EmptyString
   /\ forall q, q ∈ paths ->
        Go.HasPrefix pkgName (FirstMatch.Prefix q) = false)
  \/ exists k p,
       paths !! k = Some p
       /\ Go.HasPrefix pkgName (FirstMatch.Prefix p) = true
       /\ (forall j q, j < k -> paths !! j = Some q ->
             Go.HasPrefix pkgName (FirstMatch.Prefix q) = false)
       /\ FirstMatch.loop pkgName paths = FirstMatch.RepoTemplate p.
Proof.
  induction paths as [|path rest IH]; simpl.
  - left. split; [done|]. intros q Hq. by apply elem_of_nil in Hq.
  - destruct (Go.HasPrefix pkgName (FirstMatch.Prefix path)) eqn:Hpre.
    + right. exists 0, path. do 2 (split; [done|]). split; [|done].
      intros j q Hj. lia.
    + destruct IH as [[E Hnone] | (k & p & Hk & Hp & Hfirst & E)].
      * left. split; [done|].
        intros q [->|Hq]%elem_of_cons; [done|by apply Hnone].
      * right. exists (S k), p. do 2 (split; [done|]). split; [|done].
        intros [|j] q Hj Hq; simpl in Hq.
        -- by injection Hq as <-.
        -- apply (Hfirst j q); [lia|done].
Qed.

(** X15. In the first variant the template is that of the first rule
    whose prefix matches, and an empty template counts as no rule at all:
    a go-get request is answered "not found", with the log line of a
    failed match, exactly when no prefix matches or the first matching
    rule has an empty template, whatever the rules after it. *)
Theorem FirstMatch_empty_template_is_no_match `{TemplateEngine}
    (htmlTemplate : FirstMatch.pkgInfo -> option string)
    (conf : FirstMatch.config) (r : request) (log : list log_entry) :
  Go.Get (r_Query r) "go-get" = "1" ->
  let pkgName := r_Host r ++ r_Path r in
  let paths := FirstMatch.Paths conf in
  FirstMatch.handler htmlTemplate conf r log
  = (Responded NotFound,
     (log ++ [LogRequest pkgName; LogNoMatch pkgName])%list)
  <-> (forall q, q ∈ paths ->
         Go.HasPrefix pkgName (FirstMatch.Prefix q) = false)
      \/ exists k p,
           paths !! k = Some p
           /\ Go.HasPrefix pkgName (FirstMatch.Prefix p) = true
           /\ FirstMatch.RepoTemplate p = EmptyString
           /\ forall j q, j < k -> paths !! j = Some q ->
                Go.HasPrefix pkgName (FirstMatch.Prefix q) = false.
Proof.
  intros Hq pkgName paths. unfold FirstMatch.handler. rewrite Hq. simpl.
  fold pkgName. fold paths.
  assert (Hlog : forall (o : outcome) (l : list log_entry),
             (o, l) = (Responded NotFound,
                       (log ++ [LogRequest pkgName; LogNoMatch pkgName])%list)
             -> exists e, l = ((log ++ [LogRequest pkgName]) ++ [e])%list
                          /\ e = LogNoMatch pkgName).
  { intros o l [= _ ->]. exists (LogNoMatch pkgName).
    by rewrite <- app_assoc. }
  destruct (FirstMatch_loop_spec pkgName paths)
    as [[E Hnone] | (k & p & Hk & Hp & Hfirst & E)]; rewrite E.
  - simpl. rewrite <- app_assoc. split; [by left|done].
  - destruct (String.eqb_spec (FirstMatch.RepoTemplate p) EmptyString)
      as [Hempty|Hne].
    + rewrite <- app_assoc. split; [|done]. intros _. right. by exists k, p.
    + split.
      * intros Heq. exfalso.
        destruct (Parse _) as [t|]; [|done].
        destruct (Execute t _) as [repo|].
        -- by destruct (htmlTemplate _).
        -- apply Hlog in Heq as (e & Heq & ->).
           apply app_inj_tail in Heq as [_ ?]. done.
      * intros [Hnone | (k' & p' & Hk' & Hp' & Hempty & Hfirst')]; exfalso.
        -- rewrite (Hnone p) in Hp; [done|].
           apply list_elem_of_lookup. by exists k.
        -- destruct (Nat.lt_trichotomy k k') as [Hlt|[->|Hlt]].
           ++ by rewrite (Hfirst' k p Hlt Hk) in Hp.
           ++ rewrite Hk in Hk'. by injection Hk' as ->.
           ++ by rewrite (Hfirst k' p' Hlt Hk') in Hp'.
Qed.

Lemma FirstMatch_empty_template_is_no_match_witness :
  @FirstMatch.handler Mini.engine (fun _ => Some "page")
    (FirstMatch.Config "" 80 None
       [FirstMatch.ImportPath "a" "";
        FirstMatch.ImportPath "a/b" "https://host/{{index . 1}}"])
    (Example.goGet "a" "/b") []
  = (Responded NotFound, [LogRequest "a/b"; LogNoMatch "a/b"]).
Proof.
  apply (FirstMatch_empty_template_is_no_match (H:=Mini.engine)
           (fun _ => Some "page")
           (FirstMatch.Config "" 80 None
              [FirstMatch.ImportPath "a" "";
               FirstMatch.ImportPath "a/b" "https://host/{{index . 1}}"])
           (Example.goGet "a" "/b") []).
  - reflexivity.
  - right. exists 0, (FirstMatch.ImportPath "a" "").
    repeat split; try reflexivity. intros j q Hj. lia.
Defined.

(** X16. In the variant without component counts the templates are
    parsed when a request needs them: a go-get request makes [handler]
    panic exactly when the template of the selected rule does not parse,
    and is answered "not found" exactly when no rule is selected or the
    parsed template fails on the components of the path; requests that
    select another rule are not touched by a template that does not
    parse. *)
Theorem LongestPrefix_handler_outcomes `{TemplateEngine}
    (htmlTemplate : LongestPrefix.pkgInfo -> option string)
    (conf : LongestPrefix.config) (r : request) (log : list log_entry) :
  Go.Get (r_Query r) "go-get" = "1" ->
  let pkgName := r_Host r ++ r_Path r in
  let sel :=
    (LongestPrefix.loop pkgName (LongestPrefix.Paths conf) (None, 0)).1 in
  ((LongestPrefix.handler htmlTemplate conf r log).1 = Panicked
   <-> exists p,
         sel = Some p /\ Parse (LongestPrefix.RepoTemplate p) = None)
  /\ ((LongestPrefix.handler htmlTemplate conf r log).1 = Responded NotFound
      <-> sel = None
          \/ exists p t,
               sel = Some p
               /\ Parse (LongestPrefix.RepoTemplate p) = Some t
               /\ Execute t (Components (Go.Split pkgName slash)) = None).
Proof.
  intros Hq pkgName sel. unfold LongestPrefix.handler. rewrite Hq. simpl.
  fold pkgName. fold sel.
  destruct sel as [p|]; simpl.
  - destruct (Parse (LongestPrefix.RepoTemplate p)) as [t|] eqn:Hp; simpl.
    + destruct (Execute t _) as [repo|] eqn:He; simpl.
      * destruct (htmlTemplate _); simpl; split; split; try done;
          try (by intros (? & [= <-] & ?); congruence);
          intros [?|(? & ? & [= <-] & ? & ?)]; congruence.
      * split; split; try done.
        -- intros (? & [= <-] & ?); congruence.
        -- intros _. right. by exists p, t.
    + split; split; try done.
      * intros _. by exists p.
      * intros [?|(? & ? & [= <-] & ? & ?)]; congruence.
  - split; split; try done.
    + by intros (? & ? & _).
    + intros _. by left.
Qed.

Lemma LongestPrefix_handler_outcomes_witness :
  (@LongestPrefix.handler Mini.engine (fun _ => Some "page")
     (LongestPrefix.Config "" 80 None
        [LongestPrefix.ImportPath "a" "git" "https://h/{{index . 5}}"])
     (Example.goGet "a" "/b") []).1 = Responded NotFound.
Proof.
  apply (LongestPrefix_handler_outcomes (H:=Mini.engine)
           (fun _ => Some "page")
           (LongestPrefix.Config "" 80 None
              [LongestPrefix.ImportPath "a" "git" "https://h/{{index . 5}}"])
           (Example.goGet "a" "/b") []).
  - reflexivity.
  - right. do 2 eexists. repeat split; reflexivity.
Defined.

(** ** The go-get test *)

(** X17. Only the first value of the query parameter [go-get] counts: the
    request is refused with the bare status 400 exactly when that
    parameter is missing, has no value, or has a first value other than
    ["1"]; no other exit of [handler] gives that answer. *)
Theorem go_get_first_value_counts `{TemplateEngine}
    (r : request) (s : server) :
  (handler r s).1 = Responded (WriteHeader StatusBadRequest)
  <-> ~ exists vs, r_Query r !! "go-get" = Some ("1" :: vs).
Proof.
  assert (Hget : Go.Get (r_Query r) "go-get" = "1"
                 <-> exists vs, r_Query r !! "go-get" = Some ("1" :: vs)).
  { unfold Go.Get. destruct (r_Query r !! "go-get") as [[|v vs]|]; split;
      try done; try (by intros [? ?]).
    - intros ->. by exists vs.
    - by intros [? [= -> _]]. }
  rewrite <- Hget.
  destruct (String.eqb_spec (Go.Get (r_Query r) "go-get") "1") as [Hq|Hq].
  - rewrite (handler_go_get _ _ Hq). split; [|done].
    destruct (resolve s _) as [| | |mi]; simpl; try done.
    by destruct (ExecuteTemplate _ _ _).
  - by rewrite (handler_not_go_get _ _ Hq).
Qed.
